(** * Lite Planner App: a shallow embedding of the task / agent core

    The development follows the Python package file by file:
    - [PyDict]   : the insertion-ordered [dict] the store is made of;
    - models.py  : request and response models with their validators;
    - storage.py : the two module-level dicts;
    - routers/agents.py, routers/tasks.py, routers/dashboard.py :
      the handlers, written in a small state-and-exception monad;
    - the request dispatcher and the traces of requests a client can send.

    Identifiers and timestamps come from [uuid.uuid4()] and
    [datetime.now()]: they are inputs of the handlers that consume them. *)

From Stdlib Require Import String List Bool Arith Lia.
Import ListNotations.
Open Scope string_scope.
Open Scope list_scope.

Set Implicit Arguments.

(* ------------------------------------------------------------------ *)
(** * Python dictionaries with string keys                              *)
(* ------------------------------------------------------------------ *)

(** A Python [dict] iterates in insertion order; assigning to a key that
    is already present keeps its position.  The handlers rely on that
    order ([list(storage.tasks.values())]), so a dict is an association
    list, every key occurring at most once ([wf]). *)
Module PyDict.
Section Dict.
Variable V : Type.

Definition t := list (string * V).

Definition empty : t := [].

(** [d.get(k)] *)
Fixpoint get (d : t) (k : string) : option V :=
  match d with
  | [] => None
  | (k', v) :: d' => if k' =? k then Some v else get d' k
  end.

(** [d[k] = v] *)
Fixpoint setitem (d : t) (k : string) (v : V) : t :=
  match d with
  | [] => [(k, v)]
  | (k', v') :: d' =>
      if k' =? k then (k', v) :: d' else (k', v') :: setitem d' k v
  end.

(** In-place mutation of the object stored under [k]
    ([r = d[k]; r[field] = x]); nothing happens when [k] is absent. *)
Fixpoint modify (d : t) (k : string) (f : V -> V) : t :=
  match d with
  | [] => []
  | (k', v') :: d' =>
      if k' =? k then (k', f v') :: d' else (k', v') :: modify d' k f
  end.

(** [del d[k]]; [None] stands for Python's [KeyError]. *)
Fixpoint delitem (d : t) (k : string) : option t :=
  match d with
  | [] => None
  | (k', v') :: d' =>
      if k' =? k then Some d'
      else match delitem d' k with
           | Some d'' => Some ((k', v') :: d'')
           | None => None
           end
  end.

(** [d.keys()], [d.values()] *)
Definition keys (d : t) : list string := map fst d.
Definition values (d : t) : list V := map snd d.

Definition wf (d : t) : Prop := NoDup (keys d).
End Dict.
End PyDict.

(* ------------------------------------------------------------------ *)
(** * Exceptions                                                        *)
(* ------------------------------------------------------------------ *)

Inductive Exn : Type :=
| HTTPException (status_code : nat) (detail : string)
| ValueError (msg : string)
| KeyError (key : string).

Inductive Result (A : Type) : Type :=
| Ok (a : A)
| Raise (e : Exn).
Arguments Ok {A} a.
Arguments Raise {A} e.

Definition HTTP_201_CREATED : nat := 201.
Definition HTTP_204_NO_CONTENT : nat := 204.
Definition HTTP_404_NOT_FOUND : nat := 404.

(* ------------------------------------------------------------------ *)
(** * models.py                                                         *)
(* ------------------------------------------------------------------ *)

Definition VALID_PRIORITIES : list string := ["low"; "medium"; "high"].
Definition VALID_STATUSES : list string :=
  ["todo"; "in_progress"; "review"; "done"].

(** [v in S] for a set of strings *)
Definition mem (v : string) (S : list string) : bool :=
  existsb (String.eqb v) S.

Module AgentCreate.
Record t := mk { name : string; role : string }.
End AgentCreate.

Module TaskCreate.
Record t := mk { title : string; description : string; priority : string }.

Definition validate_priority (v : string) : Result string :=
  if negb (mem v VALID_PRIORITIES)
  then Raise (ValueError "priority must be one of ['high', 'low', 'medium']")
  else Ok v.

(** Building the model from a request body; [priority] may be missing,
    in which case the default is taken as it is. *)
Definition parse (title description : string) (priority : option string)
  : Result t :=
  match priority with
  | None => Ok (mk title description "medium")
  | Some v =>
      match validate_priority v with
      | Ok v' => Ok (mk title description v')
      | Raise e => Raise e
      end
  end.
End TaskCreate.

Module TaskUpdate.
Record t := mk { title : option string;
                 description : option string;
                 priority : option string }.

Definition validate_priority (v : option string) : Result (option string) :=
  match v with
  | Some p =>
      if negb (mem p VALID_PRIORITIES)
      then Raise (ValueError "priority must be one of ['high', 'low', 'medium']")
      else Ok v
  | None => Ok v
  end.

(** Every field defaults to [None]; a field sent as null is [None] too. *)
Definition parse (title description priority : option string) : Result t :=
  match validate_priority priority with
  | Ok v' => Ok (mk title description v')
  | Raise e => Raise e
  end.
End TaskUpdate.

Module StatusUpdate.
Record t := mk { status : string }.

Definition validate_status (v : string) : Result string :=
  if negb (mem v VALID_STATUSES)
  then Raise (ValueError
                "status must be one of ['done', 'in_progress', 'review', 'todo']")
  else Ok v.

Definition parse (status : string) : Result t :=
  match validate_status status with
  | Ok v' => Ok (mk v')
  | Raise e => Raise e
  end.
End StatusUpdate.

Module AssignUpdate.
Record t := mk { agent_id : string }.
End AssignUpdate.

(** Response models. *)
Module Agent.
Record t := mk { id : string; name : string; role : string }.
End Agent.

Module Task.
Record t := mk {
  id : string;
  title : string;
  description : string;
  priority : string;
  status : string;
  created_at : string;
  updated_at : option string;
  assigned_to : option Agent.t }.
End Task.

Module DashboardResponse.
Record t := mk {
  total : nat;
  by_status : PyDict.t nat;
  by_priority : PyDict.t nat }.
End DashboardResponse.

(* ------------------------------------------------------------------ *)
(** * storage.py                                                        *)
(* ------------------------------------------------------------------ *)

(** The raw dicts kept in the store.  Every agent dict is built with the
    keys id, name, role and every task dict with the eight keys of
    [create_task]; no handler adds or removes a key, so they are records.
    The dict under a task's "assigned_to" has the three keys of an agent
    dict and is a value of its own, held by the task dict alone. *)
Module AgentDict.
Record t := mk { id : string; name : string; role : string }.
End AgentDict.

Module TaskDict.
Record t := mk {
  id : string;
  title : string;
  description : string;
  priority : string;
  status : string;
  created_at : string;
  updated_at : option string;
  assigned_to : option AgentDict.t }.

(** [record["title"] = v] and the like *)
Definition set_title (v : string) (r : t) : t :=
  mk (id r) v (description r) (priority r) (status r)
     (created_at r) (updated_at r) (assigned_to r).
Definition set_description (v : string) (r : t) : t :=
  mk (id r) (title r) v (priority r) (status r)
     (created_at r) (updated_at r) (assigned_to r).
Definition set_priority (v : string) (r : t) : t :=
  mk (id r) (title r) (description r) v (status r)
     (created_at r) (updated_at r) (assigned_to r).
Definition set_status (v : string) (r : t) : t :=
  mk (id r) (title r) (description r) (priority r) v
     (created_at r) (updated_at r) (assigned_to r).
Definition set_updated_at (v : option string) (r : t) : t :=
  mk (id r) (title r) (description r) (priority r) (status r)
     (created_at r) v (assigned_to r).
Definition set_assigned_to (v : option AgentDict.t) (r : t) : t :=
  mk (id r) (title r) (description r) (priority r) (status r)
     (created_at r) (updated_at r) v.
End TaskDict.

Module storage.
Record t := mk {
  agents : PyDict.t AgentDict.t;   (* agent_id -> agent dict *)
  tasks : PyDict.t TaskDict.t      (* task_id  -> task dict  *)
}.

Definition empty : t := mk [] [].

Definition set_agents (d : PyDict.t AgentDict.t) (st : t) : t :=
  mk d (tasks st).
Definition set_tasks (d : PyDict.t TaskDict.t) (st : t) : t :=
  mk (agents st) d.
End storage.

(* ------------------------------------------------------------------ *)
(** * The handler monad                                                 *)
(* ------------------------------------------------------------------ *)

(** A handler reads and writes the module-level store and may raise.  An
    exception leaves the store as the handler had it when raising (Python
    undoes nothing), hence the store is returned in both cases. *)
Definition M (A : Type) : Type := storage.t -> Result A * storage.t.

Definition ret {A} (a : A) : M A := fun st => (Ok a, st).

Definition bind {A B} (c : M A) (k : A -> M B) : M B :=
  fun st =>
    match c st with
    | (Ok a, st') => k a st'
    | (Raise e, st') => (Raise e, st')
    end.

Definition raise {A} (e : Exn) : M A := fun st => (Raise e, st).

Definition gets {A} (f : storage.t -> A) : M A := fun st => (Ok (f st), st).

Definition modify_store (f : storage.t -> storage.t) : M unit :=
  fun st => (Ok tt, f st).

(** Lifting a pure, fallible computation (model validation). *)
Definition lift {A} (r : Result A) : M A := fun st => (r, st).

Declare Scope py_scope.
Delimit Scope py_scope with py.
Notation "x <- c ;; k" := (bind c (fun x => k))
  (at level 61, c at next level, right associativity) : py_scope.
Notation "c ;; k" := (bind c (fun _ => k))
  (at level 61, right associativity) : py_scope.
Open Scope py_scope.

Definition result {A} (c : M A) (st : storage.t) : Result A := fst (c st).
Definition after {A} (c : M A) (st : storage.t) : storage.t := snd (c st).

(** [storage.reset()] *)
Definition reset : M unit :=
  modify_store (storage.set_agents (PyDict.empty _)) ;;
  modify_store (storage.set_tasks (PyDict.empty _)).

(* ------------------------------------------------------------------ *)
(** * routers/agents.py                                                 *)
(* ------------------------------------------------------------------ *)

Definition _agent_from_dict (d : AgentDict.t) : Agent.t :=
  Agent.mk (AgentDict.id d) (AgentDict.name d) (AgentDict.role d).

(** [uuid4] is the value of [str(uuid.uuid4())] in this call. *)
Definition create_agent (uuid4 : string) (body : AgentCreate.t) : M Agent.t :=
  let agent_id := uuid4 in
  let record := AgentDict.mk agent_id (AgentCreate.name body)
                                      (AgentCreate.role body) in
  modify_store (fun st =>
    storage.set_agents (PyDict.setitem (storage.agents st) agent_id record) st) ;;
  ret (_agent_from_dict record).

Definition list_agents : M (list Agent.t) :=
  all <- gets (fun st => PyDict.values (storage.agents st)) ;;
  ret (map _agent_from_dict all).

Definition get_agent (agent_id : string) : M Agent.t :=
  record <- gets (fun st => PyDict.get (storage.agents st) agent_id) ;;
  match record with
  | None => raise (HTTPException HTTP_404_NOT_FOUND "Agent not found")
  | Some record => ret (_agent_from_dict record)
  end.

(* ------------------------------------------------------------------ *)
(** * routers/tasks.py                                                  *)
(* ------------------------------------------------------------------ *)

Definition _task_from_dict (d : TaskDict.t) : Task.t :=
  let assigned :=
    match TaskDict.assigned_to d with
    | Some a => Some (Agent.mk (AgentDict.id a) (AgentDict.name a)
                               (AgentDict.role a))
    | None => None
    end in
  Task.mk (TaskDict.id d) (TaskDict.title d) (TaskDict.description d)
          (TaskDict.priority d) (TaskDict.status d) (TaskDict.created_at d)
          (TaskDict.updated_at d) assigned.

Definition _get_task_or_404 (task_id : string) : M TaskDict.t :=
  record <- gets (fun st => PyDict.get (storage.tasks st) task_id) ;;
  match record with
  | None => raise (HTTPException HTTP_404_NOT_FOUND "Task not found")
  | Some record => ret record
  end.

(** [record[...] = ...] on the dict that [_get_task_or_404 task_id]
    returned.  That dict is the very object held in [storage.tasks] under
    [task_id], so the write lands in the store; the handler's own view
    [record] of the object changes alike. *)
Definition record_setitem (task_id : string) (record : TaskDict.t)
    (upd : TaskDict.t -> TaskDict.t) : M TaskDict.t :=
  modify_store (fun st =>
    storage.set_tasks (PyDict.modify (storage.tasks st) task_id upd) st) ;;
  ret (upd record).

(** [uuid4] is [str(uuid.uuid4())] and [now] is [_now_iso()] in this call. *)
Definition create_task (uuid4 now : string) (body : TaskCreate.t) : M Task.t :=
  let task_id := uuid4 in
  let record :=
    TaskDict.mk task_id (TaskCreate.title body) (TaskCreate.description body)
                (TaskCreate.priority body) "todo" now None None in
  modify_store (fun st =>
    storage.set_tasks (PyDict.setitem (storage.tasks st) task_id record) st) ;;
  ret (_task_from_dict record).

Definition list_tasks (status_filter assigned_to priority : option string)
  : M (list Task.t) :=
  results <- gets (fun st => PyDict.values (storage.tasks st)) ;;
  let results :=
    match status_filter with
    | Some s => filter (fun t => TaskDict.status t =? s) results
    | None => results
    end in
  let results :=
    match assigned_to with
    | Some a =>
        filter (fun t => match TaskDict.assigned_to t with
                         | Some snap => AgentDict.id snap =? a
                         | None => false
                         end) results
    | None => results
    end in
  let results :=
    match priority with
    | Some p => filter (fun t => TaskDict.priority t =? p) results
    | None => results
    end in
  ret (map _task_from_dict results).

Definition update_task_status (now : string) (task_id : string)
    (body : StatusUpdate.t) : M Task.t :=
  record <- _get_task_or_404 task_id ;;
  record <- record_setitem task_id record
              (TaskDict.set_status (StatusUpdate.status body)) ;;
  record <- record_setitem task_id record (TaskDict.set_updated_at (Some now)) ;;
  ret (_task_from_dict record).

(** The value put under "assigned_to" is a dict display: a new dict
    whose three values are read out of [agent] when the handler runs.
    The task dict thus holds an [AgentDict.t] of its own, not the key of
    the agent in [storage.agents]. *)
Definition assign_task (now : string) (task_id : string)
    (body : AssignUpdate.t) : M Task.t :=
  record <- _get_task_or_404 task_id ;;
  agent <- gets (fun st =>
             PyDict.get (storage.agents st) (AssignUpdate.agent_id body)) ;;
  match agent with
  | None => raise (HTTPException HTTP_404_NOT_FOUND "Agent not found")
  | Some agent =>
      record <- record_setitem task_id record
                  (TaskDict.set_assigned_to
                     (Some (AgentDict.mk (AgentDict.id agent)
                                         (AgentDict.name agent)
                                         (AgentDict.role agent)))) ;;
      record <- record_setitem task_id record
                  (TaskDict.set_updated_at (Some now)) ;;
      ret (_task_from_dict record)
  end.

Definition get_task (task_id : string) : M Task.t :=
  record <- _get_task_or_404 task_id ;;
  ret (_task_from_dict record).

Definition update_task (now : string) (task_id : string) (body : TaskUpdate.t)
  : M Task.t :=
  record <- _get_task_or_404 task_id ;;
  record <- match TaskUpdate.title body with
            | Some v => record_setitem task_id record (TaskDict.set_title v)
            | None => ret record
            end ;;
  record <- match TaskUpdate.description body with
            | Some v => record_setitem task_id record (TaskDict.set_description v)
            | None => ret record
            end ;;
  record <- match TaskUpdate.priority body with
            | Some v => record_setitem task_id record (TaskDict.set_priority v)
            | None => ret record
            end ;;
  record <- record_setitem task_id record (TaskDict.set_updated_at (Some now)) ;;
  ret (_task_from_dict record).

(** The handler answers with an empty 204 response. *)
Definition delete_task (task_id : string) : M nat :=
  _get_task_or_404 task_id ;;
  d <- gets (fun st => PyDict.delitem (storage.tasks st) task_id) ;;
  match d with
  | None => raise (KeyError task_id)
  | Some d' =>
      modify_store (storage.set_tasks d') ;;
      ret HTTP_204_NO_CONTENT
  end.

(* ------------------------------------------------------------------ *)
(** * routers/dashboard.py                                              *)
(* ------------------------------------------------------------------ *)

(** [if k in d: d[k] += 1] *)
Definition bump (d : PyDict.t nat) (k : string) : PyDict.t nat :=
  match PyDict.get d k with
  | Some n => PyDict.setitem d k (n + 1)
  | None => d
  end.

(** One turn of the loop over [all_tasks].  Every task dict has its
    "status" and "priority" keys, so the defaults of [task.get] are
    never taken. *)
Definition count_task (acc : PyDict.t nat * PyDict.t nat) (task : TaskDict.t)
  : PyDict.t nat * PyDict.t nat :=
  let (by_status, by_priority) := acc in
  let s := TaskDict.status task in
  let by_status := bump by_status s in
  let p := TaskDict.priority task in
  let by_priority := bump by_priority p in
  (by_status, by_priority).

Definition get_dashboard : M DashboardResponse.t :=
  all_tasks <- gets (fun st => PyDict.values (storage.tasks st)) ;;
  let by_status := [("todo", 0); ("in_progress", 0); ("review", 0); ("done", 0)] in
  let by_priority := [("low", 0); ("medium", 0); ("high", 0)] in
  let (by_status, by_priority) :=
    fold_left count_task all_tasks (by_status, by_priority) in
  ret (DashboardResponse.mk (length all_tasks) by_status by_priority).

(* ------------------------------------------------------------------ *)
(** * Requests                                                          *)
(* ------------------------------------------------------------------ *)

(** What a client can send to the routers of main.py, with the payload
    as it arrives: enumeration fields are still unchecked strings. *)
Inductive Request : Type :=
| POST_agents (name role : string)
| GET_agents
| GET_agents_id (agent_id : string)
| POST_tasks (title description : string) (priority : option string)
| GET_tasks (status assigned_to priority : option string)
| PATCH_tasks_status (task_id : string) (status : string)
| PATCH_tasks_assign (task_id : string) (agent_id : string)
| GET_tasks_id (task_id : string)
| PUT_tasks (task_id : string) (title description priority : option string)
| DELETE_tasks (task_id : string)
| GET_dashboard.

Inductive Response : Type :=
| AgentResponse (status_code : nat) (a : Agent.t)
| AgentListResponse (l : list Agent.t)
| TaskResponse (status_code : nat) (t : Task.t)
| TaskListResponse (l : list Task.t)
| DashboardSummary (d : DashboardResponse.t)
| EmptyResponse (status_code : nat).

(** What the process draws from its environment while serving one
    request: the next uuid and the clock. *)
Record Env := mkEnv { uuid4 : string; _now_iso : string }.

(** The body is validated into its model first; a handler runs only on
    a model that was built. *)
Definition dispatch (env : Env) (req : Request) : M Response :=
  match req with
  | POST_agents name role =>
      a <- create_agent (uuid4 env) (AgentCreate.mk name role) ;;
      ret (AgentResponse HTTP_201_CREATED a)
  | GET_agents =>
      l <- list_agents ;; ret (AgentListResponse l)
  | GET_agents_id agent_id =>
      a <- get_agent agent_id ;; ret (AgentResponse 200 a)
  | POST_tasks title description priority =>
      body <- lift (TaskCreate.parse title description priority) ;;
      t <- create_task (uuid4 env) (_now_iso env) body ;;
      ret (TaskResponse HTTP_201_CREATED t)
  | GET_tasks status_filter assigned_to priority =>
      l <- list_tasks status_filter assigned_to priority ;;
      ret (TaskListResponse l)
  | PATCH_tasks_status task_id status =>
      body <- lift (StatusUpdate.parse status) ;;
      t <- update_task_status (_now_iso env) task_id body ;;
      ret (TaskResponse 200 t)
  | PATCH_tasks_assign task_id agent_id =>
      t <- assign_task (_now_iso env) task_id (AssignUpdate.mk agent_id) ;;
      ret (TaskResponse 200 t)
  | GET_tasks_id task_id =>
      t <- get_task task_id ;; ret (TaskResponse 200 t)
  | PUT_tasks task_id title description priority =>
      body <- lift (TaskUpdate.parse title description priority) ;;
      t <- update_task (_now_iso env) task_id body ;;
      ret (TaskResponse 200 t)
  | DELETE_tasks task_id =>
      c <- delete_task task_id ;; ret (EmptyResponse c)
  | GET_dashboard =>
      d <- get_dashboard ;; ret (DashboardSummary d)
  end.

Definition Event : Type := Env * Request.

Definition step (st : storage.t) (e : Event) : storage.t :=
  after (dispatch (fst e) (snd e)) st.

(** The store after serving a sequence of requests, oldest first, from
    process start. *)
Definition run (es : list Event) : storage.t :=
  fold_left step es storage.empty.

Definition succeeded {A} (r : Result A) : bool :=
  match r with Ok _ => true | Raise _ => false end.

(** The task a request mutates ([update], [set_status], [assign]). *)
Definition mutates (req : Request) : option string :=
  match req with
  | PATCH_tasks_status task_id _ => Some task_id
  | PATCH_tasks_assign task_id _ => Some task_id
  | PUT_tasks task_id _ _ _ => Some task_id
  | _ => None
  end.

(** The id under which a request creates a task. *)
Definition creates (env : Env) (req : Request) : option string :=
  match req with
  | POST_tasks _ _ _ => Some (uuid4 env)
  | _ => None
  end.

(** History of the task stored under [k]: has a mutating request on [k]
    succeeded since the last successful creation under [k]? *)
Definition track (k : string) (acc : storage.t * bool) (e : Event)
  : storage.t * bool :=
  let (st, m) := acc in
  let (r, st') := dispatch (fst e) (snd e) st in
  let m' :=
    if succeeded r then
      match creates (fst e) (snd e), mutates (snd e) with
      | Some k', _ => if k' =? k then false else m
      | None, Some k' => if k' =? k then true else m
      | None, None => m
      end
    else m in
  (st', m').

Definition mutated_since_creation (k : string) (es : list Event) : bool :=
  snd (fold_left (track k) es (storage.empty, false)).

(** Every stored task carries enumeration members. *)
Definition task_ok (T : TaskDict.t) : Prop :=
  In (TaskDict.priority T) VALID_PRIORITIES /\
  In (TaskDict.status T) VALID_STATUSES.

Definition enum_inv (st : storage.t) : Prop :=
  Forall task_ok (PyDict.values (storage.tasks st)).

Definition store_wf (st : storage.t) : Prop :=
  PyDict.wf (storage.agents st) /\ PyDict.wf (storage.tasks st).

(* ------------------------------------------------------------------ *)
(** * Vocabulary of the statements                                      *)
(* ------------------------------------------------------------------ *)

Definition NotFound (detail : string) : Exn :=
  HTTPException HTTP_404_NOT_FOUND detail.

(** The value of an optional field once a payload is merged in. *)
Definition merged {A} (supplied : option A) (old : A) : A :=
  match supplied with Some v => v | None => old end.

(** What the three mutating handlers do to the task dict they find. *)
Definition status_effect (now : string) (body : StatusUpdate.t)
    (r : TaskDict.t) : TaskDict.t :=
  TaskDict.set_updated_at (Some now)
    (TaskDict.set_status (StatusUpdate.status body) r).

Definition assign_effect (now : string) (agent : AgentDict.t)
    (r : TaskDict.t) : TaskDict.t :=
  TaskDict.set_updated_at (Some now)
    (TaskDict.set_assigned_to
       (Some (AgentDict.mk (AgentDict.id agent) (AgentDict.name agent)
                           (AgentDict.role agent))) r).

Definition update_effect (now : string) (body : TaskUpdate.t)
    (r : TaskDict.t) : TaskDict.t :=
  TaskDict.mk (TaskDict.id r)
    (merged (TaskUpdate.title body) (TaskDict.title r))
    (merged (TaskUpdate.description body) (TaskDict.description r))
    (merged (TaskUpdate.priority body) (TaskDict.priority r))
    (TaskDict.status r) (TaskDict.created_at r) (Some now)
    (TaskDict.assigned_to r).

(** The filter of the task listing as the specification words it: the
    conjunction of the criteria that were supplied. *)
Definition matches (status_filter assigned_to priority : option string)
    (t : TaskDict.t) : bool :=
  match status_filter with
  | Some s => TaskDict.status t =? s
  | None => true
  end
  &&
  match assigned_to with
  | Some a => match TaskDict.assigned_to t with
              | Some snap => AgentDict.id snap =? a
              | None => false
              end
  | None => true
  end
  &&
  match priority with
  | Some p => TaskDict.priority t =? p
  | None => true
  end.

(** Number of tasks with a given status / priority. *)
Definition count_status (s : string) (l : list TaskDict.t) : nat :=
  length (filter (fun t => TaskDict.status t =? s) l).
Definition count_priority (p : string) (l : list TaskDict.t) : nat :=
  length (filter (fun t => TaskDict.priority t =? p) l).

(** Number of tasks whose status / priority is one of the keys counted. *)
Definition count_status_in (S : list string) (l : list TaskDict.t) : nat :=
  length (filter (fun t => mem (TaskDict.status t) S) l).
Definition count_priority_in (S : list string) (l : list TaskDict.t) : nat :=
  length (filter (fun t => mem (TaskDict.priority t) S) l).

(** The ways one request can leave the store, with what the proofs about
    traces need to know of each: the store is left as it was (a read, or
    a request that raised); an agent is stored; a task dict is stored
    afresh under the drawn id; the task dict under an id is mutated in
    place; the entry of an id is removed. *)
Inductive effect (env : Env) (req : Request) (st : storage.t)
  : Result Response -> storage.t -> Prop :=
| effect_none r :
    succeeded r = false \/ (creates env req = None /\ mutates req = None) ->
    effect env req st r st
| effect_agent r k a :
    creates env req = None -> mutates req = None ->
    effect env req st r
      (storage.set_agents (PyDict.setitem (storage.agents st) k a) st)
| effect_create r k record :
    succeeded r = true -> creates env req = Some k ->
    TaskDict.updated_at record = None -> task_ok record ->
    effect env req st r
      (storage.set_tasks (PyDict.setitem (storage.tasks st) k record) st)
| effect_mutate r k old f :
    succeeded r = true -> creates env req = None -> mutates req = Some k ->
    PyDict.get (storage.tasks st) k = Some old ->
    (forall x, TaskDict.updated_at (f x) = Some (_now_iso env)) ->
    (forall x, task_ok x -> task_ok (f x)) ->
    effect env req st r
      (storage.set_tasks (PyDict.modify (storage.tasks st) k f) st)
| effect_delete r k old l1 l2 :
    creates env req = None -> mutates req = None ->
    storage.tasks st = l1 ++ (k, old) :: l2 ->
    ~ In k (PyDict.keys l1) ->
    effect env req st r (storage.set_tasks (l1 ++ l2) st).

(** The store one request leaves behind, written as a function of the
    request and of the store it finds. *)
Definition transition (env : Env) (req : Request) (st : storage.t)
  : storage.t :=
  match req with
  | POST_agents name role =>
      storage.set_agents
        (PyDict.setitem (storage.agents st) (uuid4 env)
           (AgentDict.mk (uuid4 env) name role)) st
  | POST_tasks title description priority =>
      match TaskCreate.parse title description priority with
      | Ok body =>
          storage.set_tasks
            (PyDict.setitem (storage.tasks st) (uuid4 env)
               (TaskDict.mk (uuid4 env) (TaskCreate.title body)
                  (TaskCreate.description body) (TaskCreate.priority body)
                  "todo" (_now_iso env) None None)) st
      | Raise _ => st
      end
  | PATCH_tasks_status task_id status =>
      match StatusUpdate.parse status with
      | Ok body =>
          storage.set_tasks
            (PyDict.modify (storage.tasks st) task_id
               (status_effect (_now_iso env) body)) st
      | Raise _ => st
      end
  | PATCH_tasks_assign task_id agent_id =>
      match PyDict.get (storage.agents st) agent_id with
      | Some agent =>
          storage.set_tasks
            (PyDict.modify (storage.tasks st) task_id
               (assign_effect (_now_iso env) agent)) st
      | None => st
      end
  | PUT_tasks task_id title description priority =>
      match TaskUpdate.parse title description priority with
      | Ok body =>
          storage.set_tasks
            (PyDict.modify (storage.tasks st) task_id
               (update_effect (_now_iso env) body)) st
      | Raise _ => st
      end
  | DELETE_tasks task_id =>
      match PyDict.delitem (storage.tasks st) task_id with
      | Some d => storage.set_tasks d st
      | None => st
      end
  | _ => st
  end.

(** The task id a request is aimed at, if any. *)
Definition target (env : Env) (req : Request) : option string :=
  match req with
  | POST_tasks _ _ _ => Some (uuid4 env)
  | PATCH_tasks_status task_id _ => Some task_id
  | PATCH_tasks_assign task_id _ => Some task_id
  | PUT_tasks task_id _ _ _ => Some task_id
  | DELETE_tasks task_id => Some task_id
  | _ => None
  end.

(** Requests that only read. *)
Definition reads_only (req : Request) : bool :=
  match req with
  | GET_agents | GET_agents_id _ | GET_tasks _ _ _ | GET_tasks_id _
  | GET_dashboard => true
  | _ => false
  end.

(** An agent creation that draws the id [k]. *)
Definition draws_agent (k : string) (e : Event) : bool :=
  match snd e with
  | POST_agents _ _ => uuid4 (fst e) =? k
  | _ => false
  end.

(** Every dict is stored under its own "id". *)
Definition ids_match (st : storage.t) : Prop :=
  (forall k a, In (k, a) (storage.agents st) -> AgentDict.id a = k) /\
  (forall k T, In (k, T) (storage.tasks st) -> TaskDict.id T = k).

(** Every assignment snapshot carries the id of a stored agent. *)
Definition snapshots_resolve (st : storage.t) : Prop :=
  forall k T snap,
    In (k, T) (storage.tasks st) ->
    TaskDict.assigned_to T = Some snap ->
    exists a, PyDict.get (storage.agents st) (AgentDict.id snap) = Some a.

(** The exceptions a request can end in. *)
Definition expected_failure (e : Exn) : Prop :=
  e = NotFound "Task not found" \/ e = NotFound "Agent not found" \/
  exists msg, e = ValueError msg.

(* ================================================================== *)
(** * Facts about dictionaries                                          *)
(* ================================================================== *)

Unset Implicit Arguments.

Module PyDictFacts.
Import PyDict.
Section Facts.
Variable V : Type.
Implicit Types (d l : PyDict.t V) (k : string) (v : V).

Lemma get_setitem_eq d k v : get (setitem d k v) k = Some v.
Proof.
  induction d as [| [k' v'] d IH]; simpl.
  - now rewrite String.eqb_refl.
  - destruct (String.eqb_spec k' k); simpl.
    + subst. now rewrite String.eqb_refl.
    + destruct (String.eqb_spec k' k); [contradiction | exact IH].
Qed.

Lemma get_setitem_neq d k k' v :
  k <> k' -> get (setitem d k v) k' = get d k'.
Proof.
  intros Hne. induction d as [| [k0 v0] d IH]; simpl.
  - destruct (String.eqb_spec k k'); [contradiction | reflexivity].
  - destruct (String.eqb_spec k0 k); simpl.
    + subst. destruct (String.eqb_spec k k'); [contradiction | reflexivity].
    + destruct (String.eqb_spec k0 k'); [reflexivity | exact IH].
Qed.

Lemma get_modify_eq d k f v :
  get d k = Some v -> get (modify d k f) k = Some (f v).
Proof.
  induction d as [| [k0 v0] d IH]; simpl; [discriminate |].
  destruct (String.eqb_spec k0 k); simpl.
  - subst. rewrite String.eqb_refl. now intros [= ->].
  - destruct (String.eqb_spec k0 k); [contradiction | exact IH].
Qed.

Lemma get_modify_neq d k k' f :
  k <> k' -> get (modify d k f) k' = get d k'.
Proof.
  intros Hne. induction d as [| [k0 v0] d IH]; simpl; [reflexivity |].
  destruct (String.eqb_spec k0 k); simpl.
  - subst. destruct (String.eqb_spec k k'); [contradiction | reflexivity].
  - destruct (String.eqb_spec k0 k'); [reflexivity | exact IH].
Qed.

Lemma modify_absent d k f : get d k = None -> modify d k f = d.
Proof.
  induction d as [| [k0 v0] d IH]; simpl; [reflexivity |].
  destruct (String.eqb_spec k0 k); [discriminate |].
  intros H. now rewrite IH.
Qed.

Lemma modify_modify d k f g :
  modify (modify d k f) k g = modify d k (fun v => g (f v)).
Proof.
  induction d as [| [k0 v0] d IH]; simpl; [reflexivity |].
  destruct (String.eqb_spec k0 k) as [-> | Hne]; simpl.
  - now rewrite String.eqb_refl.
  - destruct (String.eqb_spec k0 k); [contradiction | now rewrite IH].
Qed.

Lemma modify_ext d k f g :
  (forall v, f v = g v) -> modify d k f = modify d k g.
Proof.
  intros H. induction d as [| [k0 v0] d IH]; simpl; [reflexivity |].
  now rewrite H, IH.
Qed.

Lemma keys_modify d k f : keys (modify d k f) = keys d.
Proof.
  unfold keys. induction d as [| [k0 v0] d IH]; simpl; [reflexivity |].
  destruct (k0 =? k); simpl; [reflexivity | now rewrite IH].
Qed.

Lemma length_modify d k f : length (modify d k f) = length d.
Proof.
  rewrite <- (length_map fst), <- (length_map fst d).
  exact (f_equal (@length _) (keys_modify d k f)).
Qed.

Lemma keys_setitem_present d k v v0 :
  get d k = Some v0 -> keys (setitem d k v) = keys d.
Proof.
  unfold keys. induction d as [| [k1 v1] d IH]; simpl; [discriminate |].
  destruct (k1 =? k); simpl; [reflexivity |].
  intros H. now rewrite IH.
Qed.

Lemma keys_setitem_absent d k v :
  get d k = None -> setitem d k v = d ++ [(k, v)].
Proof.
  induction d as [| [k1 v1] d IH]; simpl; [reflexivity |].
  destruct (k1 =? k); [discriminate |].
  intros H. now rewrite IH.
Qed.

Lemma get_None_keys d k : get d k = None <-> ~ In k (keys d).
Proof.
  unfold keys. induction d as [| [k1 v1] d IH]; simpl; [tauto |].
  destruct (String.eqb_spec k1 k).
  - split; [discriminate | intros H; exfalso; apply H; now left].
  - rewrite IH. tauto.
Qed.

Lemma get_In d k v : get d k = Some v -> In (k, v) d.
Proof.
  induction d as [| [k1 v1] d IH]; simpl; [discriminate |].
  destruct (String.eqb_spec k1 k).
  - intros [= ->]. subst. now left.
  - intros H. right. now apply IH.
Qed.

Lemma In_keys d k v : In (k, v) d -> In k (keys d).
Proof. intros H. apply (in_map fst) in H. exact H. Qed.

Lemma In_get d k v : wf d -> In (k, v) d -> get d k = Some v.
Proof.
  unfold wf, keys. induction d as [| [k1 v1] d IH]; simpl; [tauto |].
  intros Hnd [Heq | Hin].
  - injection Heq as -> ->. now rewrite String.eqb_refl.
  - inversion Hnd as [| ? ? Hnotin Hnd']; subst.
    destruct (String.eqb_spec k1 k) as [-> | Hne].
    + exfalso. apply Hnotin. exact (In_keys _ _ _ Hin).
    + now apply IH.
Qed.

Lemma In_setitem d k v k' v' :
  In (k', v') (setitem d k v) -> (k' = k /\ v' = v) \/ In (k', v') d.
Proof.
  induction d as [| [k1 v1] d IH]; simpl.
  - intros [[= <- <-] | []]. now left.
  - destruct (String.eqb_spec k1 k) as [-> | Hne]; simpl.
    + intros [[= <- <-] | H]; [now left | right; now right].
    + intros [H | H]; [right; now left |].
      destruct (IH H) as [? | ?]; [now left | right; now right].
Qed.

Lemma In_modify d k f k' v' :
  In (k', v') (modify d k f) ->
  In (k', v') d \/ (k' = k /\ exists v0, In (k, v0) d /\ v' = f v0).
Proof.
  induction d as [| [k1 v1] d IH]; simpl; [tauto |].
  destruct (String.eqb_spec k1 k) as [-> | Hne]; simpl.
  - intros [[= <- <-] | H].
    + right. split; [reflexivity |]. exists v1. split; [now left | reflexivity].
    + left. now right.
  - intros [H | H]; [left; now left |].
    destruct (IH H) as [? | [-> [v0 [? ->]]]]; [left; now right |].
    right. split; [reflexivity |]. exists v0. split; [now right | reflexivity].
Qed.

Lemma NoDup_snoc (l : list string) (a : string) :
  NoDup l -> ~ In a l -> NoDup (l ++ [a]).
Proof.
  induction l as [| b l IH]; simpl; intros Hnd Hn.
  - constructor; [tauto | constructor].
  - inversion Hnd as [| ? ? Hb Hl]; subst. constructor.
    + rewrite in_app_iff. simpl. intros [? | [-> | []]]; [tauto |].
      apply Hn. now left.
    + apply IH; [exact Hl | tauto].
Qed.

Lemma wf_setitem d k v : wf d -> wf (setitem d k v).
Proof.
  unfold wf. intros Hwf. destruct (get d k) as [v0 |] eqn:Hg.
  - now rewrite (keys_setitem_present _ _ v _ Hg).
  - rewrite (keys_setitem_absent _ _ v Hg). unfold keys. rewrite map_app. simpl.
    apply NoDup_snoc; [exact Hwf | now apply get_None_keys].
Qed.

Lemma wf_modify d k f : wf d -> wf (modify d k f).
Proof. unfold wf. now rewrite keys_modify. Qed.

(** Deleting a key that is present. *)
Lemma delitem_present d k v :
  get d k = Some v ->
  exists l1 l2,
    d = l1 ++ (k, v) :: l2 /\ delitem d k = Some (l1 ++ l2) /\
    ~ In k (keys l1).
Proof.
  induction d as [| [k1 v1] d IH]; simpl; [discriminate |].
  destruct (String.eqb_spec k1 k) as [-> | Hne].
  - intros [= ->]. exists [], d. simpl. tauto.
  - intros H. destruct (IH H) as [l1 [l2 [-> [Hd Hn]]]].
    exists ((k1, v1) :: l1), l2. rewrite Hd. simpl.
    split; [reflexivity |]. split; [reflexivity |].
    intros [? | ?]; [now apply Hne | now apply Hn].
Qed.

Lemma delitem_absent d k : get d k = None -> delitem d k = None.
Proof.
  induction d as [| [k1 v1] d IH]; simpl; [reflexivity |].
  destruct (k1 =? k); [discriminate |].
  intros H. now rewrite IH.
Qed.

Lemma get_app_notin l1 l2 k :
  ~ In k (keys l1) -> get (l1 ++ l2) k = get l2 k.
Proof.
  unfold keys. induction l1 as [| [k1 v1] l1 IH]; simpl; [reflexivity |].
  intros Hn. destruct (String.eqb_spec k1 k) as [-> | Hne].
  - exfalso. apply Hn. now left.
  - apply IH. intros ?. apply Hn. now right.
Qed.

Lemma get_app_other l1 l2 k k' v :
  k <> k' -> get (l1 ++ (k, v) :: l2) k' = get (l1 ++ l2) k'.
Proof.
  intros Hne. induction l1 as [| [k1 v1] l1 IH]; simpl.
  - destruct (String.eqb_spec k k'); [contradiction | reflexivity].
  - now rewrite IH.
Qed.
End Facts.
End PyDictFacts.

(* ================================================================== *)
(** * Running the handlers                                              *)
(* ================================================================== *)

Ltac unfold_monad :=
  unfold record_setitem, bind, ret, raise, gets, modify_store, lift,
         result, after in *.

Section HandlerEquations.
Import PyDict.
Variable st : storage.t.

Lemma _get_task_or_404_found task_id r :
  get (storage.tasks st) task_id = Some r ->
  _get_task_or_404 task_id st = (Ok r, st).
Proof. intros H. unfold _get_task_or_404. unfold_monad. now rewrite H. Qed.

Lemma _get_task_or_404_missing task_id :
  get (storage.tasks st) task_id = None ->
  _get_task_or_404 task_id st = (Raise (NotFound "Task not found"), st).
Proof. intros H. unfold _get_task_or_404. unfold_monad. now rewrite H. Qed.

Lemma create_task_run uuid now body :
  create_task uuid now body st =
  (Ok (_task_from_dict
         (TaskDict.mk uuid (TaskCreate.title body)
            (TaskCreate.description body) (TaskCreate.priority body)
            "todo" now None None)),
   storage.set_tasks
     (setitem (storage.tasks st) uuid
        (TaskDict.mk uuid (TaskCreate.title body)
           (TaskCreate.description body) (TaskCreate.priority body)
           "todo" now None None)) st).
Proof. reflexivity. Qed.

Lemma update_task_status_found now task_id body r :
  get (storage.tasks st) task_id = Some r ->
  update_task_status now task_id body st =
  (Ok (_task_from_dict (status_effect now body r)),
   storage.set_tasks
     (modify (storage.tasks st) task_id (status_effect now body)) st).
Proof.
  intros H. unfold update_task_status, _get_task_or_404. unfold_monad.
  rewrite H. destruct st as [ags tks]. simpl.
  now rewrite PyDictFacts.modify_modify.
Qed.

Lemma update_task_status_missing now task_id body :
  get (storage.tasks st) task_id = None ->
  update_task_status now task_id body st =
  (Raise (NotFound "Task not found"), st).
Proof.
  intros H. unfold update_task_status, _get_task_or_404. unfold_monad.
  now rewrite H.
Qed.

Lemma assign_task_found now task_id body r agent :
  get (storage.tasks st) task_id = Some r ->
  get (storage.agents st) (AssignUpdate.agent_id body) = Some agent ->
  assign_task now task_id body st =
  (Ok (_task_from_dict (assign_effect now agent r)),
   storage.set_tasks
     (modify (storage.tasks st) task_id (assign_effect now agent)) st).
Proof.
  intros H Ha. unfold assign_task, _get_task_or_404. unfold_monad.
  rewrite H, Ha. destruct st as [ags tks]. simpl.
  now rewrite PyDictFacts.modify_modify.
Qed.

Lemma assign_task_no_task now task_id body :
  get (storage.tasks st) task_id = None ->
  assign_task now task_id body st = (Raise (NotFound "Task not found"), st).
Proof.
  intros H. unfold assign_task, _get_task_or_404. unfold_monad.
  now rewrite H.
Qed.

Lemma assign_task_no_agent now task_id body r :
  get (storage.tasks st) task_id = Some r ->
  get (storage.agents st) (AssignUpdate.agent_id body) = None ->
  assign_task now task_id body st = (Raise (NotFound "Agent not found"), st).
Proof.
  intros H Ha. unfold assign_task, _get_task_or_404. unfold_monad.
  now rewrite H, Ha.
Qed.

Lemma update_task_found now task_id body r :
  get (storage.tasks st) task_id = Some r ->
  update_task now task_id body st =
  (Ok (_task_from_dict (update_effect now body r)),
   storage.set_tasks
     (modify (storage.tasks st) task_id (update_effect now body)) st).
Proof.
  intros H. unfold update_task, _get_task_or_404. unfold_monad.
  rewrite H. destruct st as [ags tks].
  destruct body as [[ti |] [de |] [pr |]]; simpl;
    rewrite ?PyDictFacts.modify_modify; reflexivity.
Qed.

Lemma update_task_missing now task_id body :
  get (storage.tasks st) task_id = None ->
  update_task now task_id body st = (Raise (NotFound "Task not found"), st).
Proof.
  intros H. unfold update_task, _get_task_or_404. unfold_monad.
  now rewrite H.
Qed.

Lemma get_task_found task_id r :
  get (storage.tasks st) task_id = Some r ->
  get_task task_id st = (Ok (_task_from_dict r), st).
Proof.
  intros H. unfold get_task, _get_task_or_404. unfold_monad. now rewrite H.
Qed.

Lemma get_task_missing task_id :
  get (storage.tasks st) task_id = None ->
  get_task task_id st = (Raise (NotFound "Task not found"), st).
Proof.
  intros H. unfold get_task, _get_task_or_404. unfold_monad. now rewrite H.
Qed.

Lemma delete_task_found task_id r :
  get (storage.tasks st) task_id = Some r ->
  exists l1 l2,
    storage.tasks st = l1 ++ (task_id, r) :: l2 /\
    ~ In task_id (keys l1) /\
    delete_task task_id st =
    (Ok HTTP_204_NO_CONTENT, storage.set_tasks (l1 ++ l2) st).
Proof.
  intros H.
  destruct (PyDictFacts.delitem_present _ _ _ _ H) as [l1 [l2 [Hd [Hdel Hn]]]].
  exists l1, l2. split; [exact Hd |]. split; [exact Hn |].
  unfold delete_task, _get_task_or_404. unfold_monad.
  now rewrite H, Hdel.
Qed.

Lemma delete_task_missing task_id :
  get (storage.tasks st) task_id = None ->
  delete_task task_id st = (Raise (NotFound "Task not found"), st).
Proof.
  intros H. unfold delete_task, _get_task_or_404. unfold_monad.
  now rewrite H.
Qed.
End HandlerEquations.

(* ================================================================== *)
(** * Creating a task                                                   *)
(* ================================================================== *)

Lemma TaskCreate_parse_priority title description priority body :
  TaskCreate.parse title description priority = Ok body ->
  body = TaskCreate.mk title description (merged priority "medium").
Proof.
  unfold TaskCreate.parse, TaskCreate.validate_priority.
  destruct priority as [p |]; [destruct (mem p VALID_PRIORITIES) |];
    simpl; intros H; try discriminate; now injection H as <-.
Qed.

(** C1. A create-task call whose body was accepted stores, under the id
    drawn for it, a task dict with the given title and description, the
    supplied priority or "medium" when none came, status "todo", the
    current time as created_at, updated_at and assigned_to null; it
    returns that same task and leaves the agents alone. *)
Theorem create_task_initial_fields
    title description priority body uuid now st :
  TaskCreate.parse title description priority = Ok body ->
  let p := merged priority "medium" in
  let stored := TaskDict.mk uuid title description p "todo" now None None in
  create_task uuid now body st =
    (Ok (Task.mk uuid title description p "todo" now None None),
     storage.set_tasks (PyDict.setitem (storage.tasks st) uuid stored) st) /\
  PyDict.get (storage.tasks (after (create_task uuid now body) st)) uuid
    = Some stored /\
  storage.agents (after (create_task uuid now body) st) = storage.agents st.
Proof.
  intros Hparse p stored.
  rewrite (TaskCreate_parse_priority _ _ _ _ Hparse).
  unfold after. rewrite create_task_run. simpl.
  split; [reflexivity |]. split; [| reflexivity].
  apply PyDictFacts.get_setitem_eq.
Qed.

Lemma create_task_initial_fields_witness :
  TaskCreate.parse "T" "D" None = Ok (TaskCreate.mk "T" "D" "medium") /\
  result (create_task "id-1" "2026-01-01T00:00:00+00:00"
            (TaskCreate.mk "T" "D" "medium")) storage.empty
  = Ok (Task.mk "id-1" "T" "D" "medium" "todo"
                "2026-01-01T00:00:00+00:00" None None).
Proof.
  split; [reflexivity |].
  destruct (create_task_initial_fields "T" "D" None
              (TaskCreate.mk "T" "D" "medium") "id-1"
              "2026-01-01T00:00:00+00:00" storage.empty eq_refl) as [H _].
  unfold result. rewrite H. reflexivity.
Defined.

(* ================================================================== *)
(** * Updating a task                                                   *)
(* ================================================================== *)

(** C4. [update_task] on an absent id raises the 404 of the task lookup
    and changes nothing.  On a stored task it writes each supplied field,
    keeps each omitted one, keeps id, status, created_at and assigned_to,
    and sets updated_at to the current time whatever was supplied; the
    other tasks, the order of the store and the agents stay as they
    were. *)
Theorem update_task_merges_supplied_fields now task_id body st :
  (PyDict.get (storage.tasks st) task_id = None ->
   update_task now task_id body st = (Raise (NotFound "Task not found"), st))
  /\
  (forall r, PyDict.get (storage.tasks st) task_id = Some r ->
   exists r' st',
     update_task now task_id body st = (Ok (_task_from_dict r'), st') /\
     PyDict.get (storage.tasks st') task_id = Some r' /\
     TaskDict.title r' = merged (TaskUpdate.title body) (TaskDict.title r) /\
     TaskDict.description r'
       = merged (TaskUpdate.description body) (TaskDict.description r) /\
     TaskDict.priority r'
       = merged (TaskUpdate.priority body) (TaskDict.priority r) /\
     TaskDict.updated_at r' = Some now /\
     TaskDict.id r' = TaskDict.id r /\
     TaskDict.status r' = TaskDict.status r /\
     TaskDict.created_at r' = TaskDict.created_at r /\
     TaskDict.assigned_to r' = TaskDict.assigned_to r /\
     (forall k, k <> task_id ->
        PyDict.get (storage.tasks st') k = PyDict.get (storage.tasks st) k) /\
     PyDict.keys (storage.tasks st') = PyDict.keys (storage.tasks st) /\
     storage.agents st' = storage.agents st).
Proof.
  split.
  - apply update_task_missing.
  - intros r Hr.
    exists (update_effect now body r).
    eexists. split; [apply update_task_found; exact Hr |].
    simpl. split; [now apply PyDictFacts.get_modify_eq |].
    repeat (split; [reflexivity |]).
    split; [| split; [apply PyDictFacts.keys_modify | reflexivity]].
    intros k Hk. apply PyDictFacts.get_modify_neq. congruence.
Qed.

Lemma update_task_merges_supplied_fields_witness :
  let r := TaskDict.mk "id-1" "T" "D" "low" "todo" "t0" None None in
  let st := storage.mk [] [("id-1", r)] in
  (exists r',
     result (update_task "t1" "id-1" (TaskUpdate.mk None None None)) st
       = Ok (_task_from_dict r') /\
     TaskDict.title r' = "T" /\ TaskDict.updated_at r' = Some "t1") /\
  result (update_task "t1" "id-2" (TaskUpdate.mk (Some "X") None None)) st
  = Raise (NotFound "Task not found").
Proof.
  intros r st.
  destruct (update_task_merges_supplied_fields "t1" "id-1"
              (TaskUpdate.mk None None None) st) as [_ Hfound].
  destruct (update_task_merges_supplied_fields "t1" "id-2"
              (TaskUpdate.mk (Some "X") None None) st) as [Hmissing _].
  split.
  - destruct (Hfound r eq_refl)
      as [r' [st' [Hrun [_ [Htitle [_ [_ [Hupd _]]]]]]]].
    exists r'. unfold result. rewrite Hrun.
    split; [reflexivity |]. split; [exact Htitle | exact Hupd].
  - unfold result. rewrite (Hmissing eq_refl). reflexivity.
Defined.

(* ================================================================== *)
(** * Assigning a task                                                  *)
(* ================================================================== *)

(** C6. [assign_task] looks the task up first: on an absent task id it
    raises "Task not found" whether or not the agent exists; on a stored
    task and an absent agent id it raises "Agent not found".  In both
    cases the store it leaves is the store it found, so the task still
    has the dict it had. *)
Theorem assign_task_not_found_leaves_store now task_id body st :
  (PyDict.get (storage.tasks st) task_id = None ->
   assign_task now task_id body st = (Raise (NotFound "Task not found"), st))
  /\
  (forall r,
   PyDict.get (storage.tasks st) task_id = Some r ->
   PyDict.get (storage.agents st) (AssignUpdate.agent_id body) = None ->
   assign_task now task_id body st = (Raise (NotFound "Agent not found"), st)
   /\ PyDict.get (storage.tasks (after (assign_task now task_id body) st))
        task_id = Some r).
Proof.
  split.
  - apply assign_task_no_task.
  - intros r Hr Ha.
    pose proof (assign_task_no_agent st now task_id body r Hr Ha) as H.
    split; [exact H |]. unfold after. rewrite H. exact Hr.
Qed.

Lemma assign_task_not_found_leaves_store_witness :
  let r := TaskDict.mk "id-1" "T" "D" "low" "todo" "t0" None None in
  let a := AgentDict.mk "ag-1" "Alice" "senior_dev" in
  let st := storage.mk [("ag-1", a)] [("id-1", r)] in
  assign_task "t1" "id-9" (AssignUpdate.mk "ag-1") st
  = (Raise (NotFound "Task not found"), st) /\
  assign_task "t1" "id-1" (AssignUpdate.mk "ag-9") st
  = (Raise (NotFound "Agent not found"), st).
Proof.
  intros r a st. split.
  - destruct (assign_task_not_found_leaves_store "t1" "id-9"
                (AssignUpdate.mk "ag-1") st) as [H _].
    exact (H eq_refl).
  - destruct (assign_task_not_found_leaves_store "t1" "id-1"
                (AssignUpdate.mk "ag-9") st) as [_ H].
    exact (proj1 (H r eq_refl eq_refl)).
Defined.

Lemma assign_then_get now task_id body st r agent agents' :
  PyDict.get (storage.tasks st) task_id = Some r ->
  PyDict.get (storage.agents st) (AssignUpdate.agent_id body) = Some agent ->
  get_task task_id
    (storage.set_agents agents' (after (assign_task now task_id body) st))
  = (Ok (_task_from_dict (assign_effect now agent r)),
     storage.set_agents agents' (after (assign_task now task_id body) st)).
Proof.
  intros Hr Ha. apply get_task_found.
  unfold after. rewrite (assign_task_found st now task_id body r agent Hr Ha).
  simpl. now apply PyDictFacts.get_modify_eq.
Qed.

(** C7. After a successful [assign_task], [get_task] returns the task
    with assigned_to equal to the id, name and role the agent dict had
    when the assignment ran and updated_at equal to the time of the
    assignment.  The answer is the same whatever the agent collection
    has become in the meantime, since the task holds its own copy of the
    three fields.  What the task was assigned to before plays no part: a
    second assignment puts the snapshot of its own agent in place. *)
Theorem assign_task_snapshot_roundtrip now task_id body st r agent :
  PyDict.get (storage.tasks st) task_id = Some r ->
  PyDict.get (storage.agents st) (AssignUpdate.agent_id body) = Some agent ->
  let snap := Agent.mk (AgentDict.id agent) (AgentDict.name agent)
                       (AgentDict.role agent) in
  let st' := after (assign_task now task_id body) st in
  let T := Task.mk (TaskDict.id r) (TaskDict.title r) (TaskDict.description r)
             (TaskDict.priority r) (TaskDict.status r) (TaskDict.created_at r)
             (Some now) (Some snap) in
  result (assign_task now task_id body) st = Ok T /\
  result (get_task task_id) st' = Ok T /\
  (forall agents',
     result (get_task task_id) (storage.set_agents agents' st') = Ok T) /\
  (forall now2 body2 agent2,
     PyDict.get (storage.agents st') (AssignUpdate.agent_id body2)
       = Some agent2 ->
     exists T2,
       result (get_task task_id) (after (assign_task now2 task_id body2) st')
         = Ok T2 /\
       Task.assigned_to T2
         = Some (Agent.mk (AgentDict.id agent2) (AgentDict.name agent2)
                          (AgentDict.role agent2))).
Proof.
  intros Hr Ha snap st' T.
  pose proof (assign_task_found st now task_id body r agent Hr Ha) as Hrun.
  assert (Hst' : PyDict.get (storage.tasks st') task_id
                 = Some (assign_effect now agent r)).
  { unfold st', after. rewrite Hrun. simpl.
    now apply PyDictFacts.get_modify_eq. }
  split; [unfold result; rewrite Hrun; reflexivity |].
  split; [unfold result; rewrite (get_task_found _ _ _ Hst'); reflexivity |].
  split.
  - intros agents'. unfold result, st'.
    rewrite (assign_then_get now task_id body st r agent agents' Hr Ha).
    reflexivity.
  - intros now2 body2 agent2 Ha2.
    eexists. split.
    + unfold result.
      pose proof (assign_then_get now2 task_id body2 st' _ agent2
                    (storage.agents (after (assign_task now2 task_id body2) st'))
                    Hst' Ha2) as H.
      replace (storage.set_agents _ _)
        with (after (assign_task now2 task_id body2) st') in H
        by (now destruct (after (assign_task now2 task_id body2) st')).
      rewrite H. reflexivity.
    + reflexivity.
Qed.

Lemma assign_task_snapshot_roundtrip_witness :
  let r := TaskDict.mk "id-1" "T" "D" "low" "todo" "t0" None None in
  let a := AgentDict.mk "ag-1" "Alice" "senior_dev" in
  let b := AgentDict.mk "ag-2" "Bob" "qa" in
  let st := storage.mk [("ag-1", a); ("ag-2", b)] [("id-1", r)] in
  let st' := after (assign_task "t1" "id-1" (AssignUpdate.mk "ag-1")) st in
  result (get_task "id-1") st'
  = Ok (Task.mk "id-1" "T" "D" "low" "todo" "t0" (Some "t1")
                (Some (Agent.mk "ag-1" "Alice" "senior_dev"))) /\
  exists T2,
    result (get_task "id-1")
           (after (assign_task "t2" "id-1" (AssignUpdate.mk "ag-2")) st')
    = Ok T2 /\
    Task.assigned_to T2 = Some (Agent.mk "ag-2" "Bob" "qa").
Proof.
  intros r a b st st'.
  destruct (assign_task_snapshot_roundtrip "t1" "id-1"
              (AssignUpdate.mk "ag-1") st r a eq_refl eq_refl)
    as [_ [Hget [_ Hagain]]].
  split; [exact Hget |].
  exact (Hagain "t2" (AssignUpdate.mk "ag-2") b eq_refl).
Defined.

(* ================================================================== *)
(** * Listing tasks                                                     *)
(* ================================================================== *)

Section Filters.
Variable A : Type.
Implicit Types (f g : A -> bool) (l : list A).

Lemma filter_all l : filter (fun _ => true) l = l.
Proof. induction l as [| x l IH]; simpl; [reflexivity | now rewrite IH]. Qed.

Lemma filter_and f g l :
  filter g (filter f l) = filter (fun x => f x && g x) l.
Proof.
  induction l as [| x l IH]; simpl; [reflexivity |].
  destruct (f x); simpl; [destruct (g x) |]; now rewrite IH.
Qed.

Lemma filter_optional {B} (o : option B) (f : B -> A -> bool) l :
  match o with Some v => filter (f v) l | None => l end
  = filter (fun x => match o with Some v => f v x | None => true end) l.
Proof. destruct o; [reflexivity | symmetry; apply filter_all]. Qed.

Lemma filter_none f l :
  (forall x, In x l -> f x = false) -> filter f l = [].
Proof.
  induction l as [| x l IH]; simpl; intros H; [reflexivity |].
  rewrite (H x (or_introl eq_refl)). apply IH. intros y Hy. apply H. now right.
Qed.
End Filters.

Lemma list_tasks_run status_filter assigned_to priority st :
  list_tasks status_filter assigned_to priority st =
  (Ok (map _task_from_dict
         (filter (matches status_filter assigned_to priority)
                 (PyDict.values (storage.tasks st)))),
   st).
Proof.
  unfold list_tasks. unfold_monad. f_equal. f_equal. f_equal.
  rewrite (filter_optional _ status_filter
             (fun s t => TaskDict.status t =? s)).
  rewrite (filter_optional _ assigned_to
             (fun a t => match TaskDict.assigned_to t with
                         | Some snap => AgentDict.id snap =? a
                         | None => false
                         end)).
  rewrite (filter_optional _ priority
             (fun p t => TaskDict.priority t =? p)).
  rewrite !filter_and. apply filter_ext. intros t. unfold matches.
  now rewrite andb_assoc.
Qed.

Lemma matches_iff status_filter assigned_to priority t :
  matches status_filter assigned_to priority t = true <->
  (forall s, status_filter = Some s -> TaskDict.status t = s) /\
  (forall a, assigned_to = Some a ->
     exists snap, TaskDict.assigned_to t = Some snap /\ AgentDict.id snap = a) /\
  (forall p, priority = Some p -> TaskDict.priority t = p).
Proof.
  unfold matches. rewrite !andb_true_iff.
  assert (Hs : (match status_filter with
                | Some s => TaskDict.status t =? s | None => true end) = true
               <-> forall s, status_filter = Some s -> TaskDict.status t = s).
  { destruct status_filter as [s |].
    - rewrite String.eqb_eq. split; [now intros H ? [= <-] | auto].
    - split; [discriminate | reflexivity]. }
  assert (Hp : (match priority with
                | Some p => TaskDict.priority t =? p | None => true end) = true
               <-> forall p, priority = Some p -> TaskDict.priority t = p).
  { destruct priority as [p |].
    - rewrite String.eqb_eq. split; [now intros H ? [= <-] | auto].
    - split; [discriminate | reflexivity]. }
  assert (Ha : (match assigned_to with
                | Some a => match TaskDict.assigned_to t with
                            | Some snap => AgentDict.id snap =? a
                            | None => false
                            end
                | None => true end) = true
               <-> forall a, assigned_to = Some a ->
                     exists snap, TaskDict.assigned_to t = Some snap /\
                                  AgentDict.id snap = a).
  { destruct assigned_to as [a |].
    - destruct (TaskDict.assigned_to t) as [snap |].
      + rewrite String.eqb_eq. split.
        * intros H ? [= <-]. now exists snap.
        * intros H. destruct (H a eq_refl) as [snap' [[= <-] Hid]]. exact Hid.
      + split; [discriminate |].
        intros H. destruct (H a eq_refl) as [snap' [[=] _]].
    - split; [discriminate | reflexivity]. }
  rewrite Hs, Ha, Hp. tauto.
Qed.

(** C5. [list_tasks] returns, in the iteration order of the store,
    exactly the stored tasks that meet every supplied criterion: status
    equal to the status filter, an assignment snapshot whose id equals
    the assigned_to filter (a task without assignment never meets it),
    priority equal to the priority filter.  Each listed task carries the
    id, title, description, priority, status, created_at and updated_at
    of the stored task it stands for, and the id, name and role of its
    assignment snapshot, or no assignment when the stored task has none.
    With no filter it returns the whole collection.  The store is not
    touched. *)
Theorem list_tasks_conjunction_of_filters status_filter assigned_to priority st :
  let listed (r : TaskDict.t) : Task.t :=
    Task.mk (TaskDict.id r) (TaskDict.title r) (TaskDict.description r)
      (TaskDict.priority r) (TaskDict.status r) (TaskDict.created_at r)
      (TaskDict.updated_at r)
      (match TaskDict.assigned_to r with
       | Some snap => Some (Agent.mk (AgentDict.id snap) (AgentDict.name snap)
                                     (AgentDict.role snap))
       | None => None
       end) in
  list_tasks status_filter assigned_to priority st =
    (Ok (map listed
           (filter (matches status_filter assigned_to priority)
                   (PyDict.values (storage.tasks st)))),
     st) /\
  (forall t,
     matches status_filter assigned_to priority t = true <->
     (forall s, status_filter = Some s -> TaskDict.status t = s) /\
     (forall a, assigned_to = Some a ->
        exists snap,
          TaskDict.assigned_to t = Some snap /\ AgentDict.id snap = a) /\
     (forall p, priority = Some p -> TaskDict.priority t = p)) /\
  list_tasks None None None st =
    (Ok (map listed (PyDict.values (storage.tasks st))), st) /\
  (forall T,
     (exists l, list_tasks status_filter assigned_to priority st = (Ok l, st)
                /\ In T l) <->
     (exists r, In r (PyDict.values (storage.tasks st)) /\
                matches status_filter assigned_to priority r = true /\
                T = listed r)).
Proof.
  intros listed.
  assert (Hrun :
    list_tasks status_filter assigned_to priority st =
    (Ok (map listed
           (filter (matches status_filter assigned_to priority)
                   (PyDict.values (storage.tasks st)))),
     st)) by apply list_tasks_run.
  split; [exact Hrun |].
  split; [intros t; apply matches_iff |].
  split; [reflexivity |].
  intros T. split.
  - intros [l [Hl Hin]]. rewrite Hrun in Hl. injection Hl as <-.
    apply in_map_iff in Hin. destruct Hin as [r [<- Hr]].
    apply filter_In in Hr. destruct Hr as [Hr Hm]. now exists r.
  - intros [r [Hr [Hm ->]]]. eexists. split; [exact Hrun |].
    apply in_map. apply filter_In. now split.
Qed.

Lemma list_tasks_conjunction_of_filters_witness :
  let a := AgentDict.mk "ag-1" "Alice" "senior_dev" in
  let r1 := TaskDict.mk "id-1" "A" "a" "high" "todo" "t0" None None in
  let r2 := TaskDict.mk "id-2" "B" "b" "high" "done" "t1" (Some "t3") (Some a) in
  let r3 := TaskDict.mk "id-3" "C" "c" "low" "done" "t2" None None in
  let st := storage.mk [("ag-1", a)] [("id-1", r1); ("id-2", r2); ("id-3", r3)] in
  let T1 := Task.mk "id-1" "A" "a" "high" "todo" "t0" None None in
  let T2 := Task.mk "id-2" "B" "b" "high" "done" "t1" (Some "t3")
                    (Some (Agent.mk "ag-1" "Alice" "senior_dev")) in
  let T3 := Task.mk "id-3" "C" "c" "low" "done" "t2" None None in
  list_tasks (Some "done") None (Some "high") st = (Ok [T2], st) /\
  list_tasks None (Some "ag-1") None st = (Ok [T2], st) /\
  list_tasks None None None st = (Ok [T1; T2; T3], st).
Proof.
  intros a r1 r2 r3 st T1 T2 T3.
  split; [| split].
  - rewrite (proj1 (list_tasks_conjunction_of_filters
                      (Some "done") None (Some "high") st)).
    reflexivity.
  - rewrite (proj1 (list_tasks_conjunction_of_filters
                      None (Some "ag-1") None st)).
    reflexivity.
  - rewrite (proj1 (proj2 (proj2 (list_tasks_conjunction_of_filters
                                    None None None st)))).
    reflexivity.
Defined.

(** C10. [list_tasks] raises for no filter values and leaves the store
    as it found it.  A status (priority) filter that no stored task
    carries gives the empty list; that is the case of a value outside
    the enumeration in a store whose tasks all carry enumeration members,
    as every store reached from process start is.  An assigned_to filter
    matching no snapshot id gives the empty list as well. *)
Theorem list_tasks_never_fails status_filter assigned_to priority st :
  (exists l, list_tasks status_filter assigned_to priority st = (Ok l, st)) /\
  (forall s, status_filter = Some s ->
     (forall t, In t (PyDict.values (storage.tasks st)) ->
                TaskDict.status t <> s) ->
     list_tasks status_filter assigned_to priority st = (Ok [], st)) /\
  (forall p, priority = Some p ->
     (forall t, In t (PyDict.values (storage.tasks st)) ->
                TaskDict.priority t <> p) ->
     list_tasks status_filter assigned_to priority st = (Ok [], st)) /\
  (forall a, assigned_to = Some a ->
     (forall t snap, In t (PyDict.values (storage.tasks st)) ->
                     TaskDict.assigned_to t = Some snap ->
                     AgentDict.id snap <> a) ->
     list_tasks status_filter assigned_to priority st = (Ok [], st)) /\
  (forall s, status_filter = Some s -> ~ In s VALID_STATUSES ->
     enum_inv st ->
     list_tasks status_filter assigned_to priority st = (Ok [], st)) /\
  (forall p, priority = Some p -> ~ In p VALID_PRIORITIES ->
     enum_inv st ->
     list_tasks status_filter assigned_to priority st = (Ok [], st)).
Proof.
  assert (Hempty :
    (forall t, In t (PyDict.values (storage.tasks st)) ->
               matches status_filter assigned_to priority t = false) ->
    list_tasks status_filter assigned_to priority st = (Ok [], st)).
  { intros H. rewrite list_tasks_run. now rewrite (filter_none _ _ _ H). }
  assert (Hno : forall t,
    matches status_filter assigned_to priority t <> true ->
    matches status_filter assigned_to priority t = false).
  { intros t H. now destruct (matches _ _ _ t). }
  assert (Hstatus : forall s, status_filter = Some s ->
     (forall t, In t (PyDict.values (storage.tasks st)) ->
                TaskDict.status t <> s) ->
     list_tasks status_filter assigned_to priority st = (Ok [], st)).
  { intros s Hs Hnone. apply Hempty. intros t Ht. apply Hno.
    rewrite matches_iff. intros [H _]. exact (Hnone t Ht (H s Hs)). }
  assert (Hprio : forall p, priority = Some p ->
     (forall t, In t (PyDict.values (storage.tasks st)) ->
                TaskDict.priority t <> p) ->
     list_tasks status_filter assigned_to priority st = (Ok [], st)).
  { intros p Hp Hnone. apply Hempty. intros t Ht. apply Hno.
    rewrite matches_iff. intros [_ [_ H]]. exact (Hnone t Ht (H p Hp)). }
  split; [eexists; apply list_tasks_run |].
  split; [exact Hstatus |].
  split; [exact Hprio |].
  split.
  { intros a Ha Hnone. apply Hempty. intros t Ht. apply Hno.
    rewrite matches_iff. intros [_ [H _]].
    destruct (H a Ha) as [snap [Hsnap Hid]]. exact (Hnone t snap Ht Hsnap Hid). }
  split.
  - intros s Hs Hout Hinv. apply (Hstatus s Hs). intros t Ht Heq.
    unfold enum_inv in Hinv. rewrite Forall_forall in Hinv.
    destruct (Hinv t Ht) as [_ Hin]. apply Hout. now rewrite <- Heq.
  - intros p Hp Hout Hinv. apply (Hprio p Hp). intros t Ht Heq.
    unfold enum_inv in Hinv. rewrite Forall_forall in Hinv.
    destruct (Hinv t Ht) as [Hin _]. apply Hout. now rewrite <- Heq.
Qed.

Lemma list_tasks_never_fails_witness :
  let a := AgentDict.mk "ag-1" "Alice" "senior_dev" in
  let r := TaskDict.mk "id-1" "T" "D" "low" "todo" "t0" (Some "t1") (Some a) in
  let st := storage.mk [("ag-1", a)] [("id-1", r)] in
  list_tasks (Some "bogus") None None st = (Ok [], st) /\
  list_tasks (Some "review") None None st = (Ok [], st) /\
  list_tasks None None (Some "high") st = (Ok [], st) /\
  list_tasks None (Some "ag-9") None st = (Ok [], st) /\
  list_tasks None None (Some "urgent") st = (Ok [], st).
Proof.
  intros a r st.
  assert (Hinv : enum_inv st) by (repeat constructor; simpl; tauto).
  split; [| split; [| split; [| split]]].
  - destruct (list_tasks_never_fails (Some "bogus") None None st)
      as [_ [_ [_ [_ [H _]]]]].
    apply (H "bogus" eq_refl); [| exact Hinv].
    simpl. intros [E | [E | [E | [E | []]]]]; discriminate E.
  - destruct (list_tasks_never_fails (Some "review") None None st)
      as [_ [H _]].
    apply (H "review" eq_refl).
    simpl. intros t [<- | []]. discriminate.
  - destruct (list_tasks_never_fails None None (Some "high") st)
      as [_ [_ [H _]]].
    apply (H "high" eq_refl).
    simpl. intros t [<- | []]. discriminate.
  - destruct (list_tasks_never_fails None (Some "ag-9") None st)
      as [_ [_ [_ [H _]]]].
    apply (H "ag-9" eq_refl).
    simpl. intros t snap [<- | []] [= <-]. discriminate.
  - destruct (list_tasks_never_fails None None (Some "urgent") st)
      as [_ [_ [_ [_ [_ H]]]]].
    apply (H "urgent" eq_refl); [| exact Hinv].
    simpl. intros [E | [E | [E | []]]]; discriminate E.
Defined.

(* ================================================================== *)
(** * Deleting a task                                                   *)
(* ================================================================== *)

Lemma wf_middle {V} (l1 l2 : PyDict.t V) k v :
  PyDict.wf (l1 ++ (k, v) :: l2) ->
  PyDict.wf (l1 ++ l2) /\ PyDict.get (l1 ++ l2) k = None.
Proof.
  unfold PyDict.wf, PyDict.keys. rewrite !map_app. simpl. intros H.
  split.
  - exact (NoDup_remove_1 _ _ _ H).
  - apply PyDictFacts.get_None_keys. unfold PyDict.keys. rewrite map_app.
    exact (NoDup_remove_2 _ _ _ H).
Qed.

(** C9. [delete_task] on an absent id raises the 404 of the task lookup
    and changes nothing.  On a stored id it removes the entry of that id
    and nothing else: the entries before and after it stay in place, a
    lookup of the id then finds nothing, every other id maps to the task
    it mapped to, and the agent collection is the same, so [list_agents]
    and [get_agent] answer as before, also for the agent the task was
    assigned to. *)
Theorem delete_task_removes_one_entry task_id st :
  (PyDict.get (storage.tasks st) task_id = None ->
   delete_task task_id st = (Raise (NotFound "Task not found"), st))
  /\
  (forall r,
   PyDict.wf (storage.tasks st) ->
   PyDict.get (storage.tasks st) task_id = Some r ->
   exists st',
     delete_task task_id st = (Ok HTTP_204_NO_CONTENT, st') /\
     (exists l1 l2, storage.tasks st = l1 ++ (task_id, r) :: l2 /\
                    storage.tasks st' = l1 ++ l2) /\
     PyDict.get (storage.tasks st') task_id = None /\
     (forall k, k <> task_id ->
        PyDict.get (storage.tasks st') k = PyDict.get (storage.tasks st) k) /\
     storage.agents st' = storage.agents st /\
     result list_agents st' = result list_agents st /\
     (forall agent_id,
        result (get_agent agent_id) st' = result (get_agent agent_id) st)).
Proof.
  split; [apply delete_task_missing |].
  intros r Hwf Hr.
  destruct (delete_task_found st task_id r Hr) as [l1 [l2 [Hd [Hn Hrun]]]].
  eexists. split; [exact Hrun |]. simpl.
  rewrite Hd in Hwf. destruct (wf_middle _ _ _ _ Hwf) as [_ Hgone].
  split; [now exists l1, l2 |].
  split; [exact Hgone |].
  split.
  { intros k Hk. rewrite Hd. symmetry. apply PyDictFacts.get_app_other.
    congruence. }
  split; [reflexivity |]. split; [reflexivity |].
  intros agent_id. unfold result, get_agent, bind, gets. simpl.
  now destruct (PyDict.get (storage.agents st) agent_id).
Qed.

Lemma delete_task_removes_one_entry_witness :
  let a := AgentDict.mk "ag-1" "Alice" "senior_dev" in
  let r1 := TaskDict.mk "id-1" "T" "D" "low" "todo" "t0" (Some "t1") (Some a) in
  let r2 := TaskDict.mk "id-2" "U" "E" "high" "done" "t2" None None in
  let st := storage.mk [("ag-1", a)] [("id-1", r1); ("id-2", r2)] in
  delete_task "id-9" st = (Raise (NotFound "Task not found"), st) /\
  exists st',
    delete_task "id-1" st = (Ok HTTP_204_NO_CONTENT, st') /\
    PyDict.get (storage.tasks st') "id-1" = None /\
    PyDict.get (storage.tasks st') "id-2" = Some r2 /\
    storage.agents st' = storage.agents st /\
    result (get_agent "ag-1") st' = Ok (Agent.mk "ag-1" "Alice" "senior_dev").
Proof.
  intros a r1 r2 st.
  split.
  - exact (proj1 (delete_task_removes_one_entry "id-9" st) eq_refl).
  - destruct (delete_task_removes_one_entry "id-1" st) as [_ H].
    assert (Hwf : PyDict.wf (storage.tasks st)).
    { repeat constructor; simpl; intuition discriminate. }
    destruct (H r1 Hwf eq_refl)
      as [st' [Hrun [_ [Hgone [Hother [Hag [_ Hget]]]]]]].
    exists st'. split; [exact Hrun |]. split; [exact Hgone |].
    split; [rewrite Hother; [reflexivity | discriminate] |].
    split; [exact Hag |]. rewrite Hget. reflexivity.
Defined.

(* ================================================================== *)
(** * What one request does to the store                                *)
(* ================================================================== *)

Lemma mem_In v S : mem v S = true <-> In v S.
Proof.
  unfold mem. rewrite existsb_exists. split.
  - intros [x [Hx Heq]]. apply String.eqb_eq in Heq. now subst.
  - intros H. exists v. split; [exact H | apply String.eqb_refl].
Qed.

Lemma TaskCreate_parse_valid title description priority body :
  TaskCreate.parse title description priority = Ok body ->
  In (TaskCreate.priority body) VALID_PRIORITIES.
Proof.
  unfold TaskCreate.parse, TaskCreate.validate_priority.
  destruct priority as [p |].
  - destruct (mem p VALID_PRIORITIES) eqn:Hm; simpl; intros H;
      [| discriminate].
    injection H as <-. exact (proj1 (mem_In _ _) Hm).
  - intros H. injection H as <-. simpl. tauto.
Qed.

Lemma TaskUpdate_parse_valid title description priority body :
  TaskUpdate.parse title description priority = Ok body ->
  body = TaskUpdate.mk title description priority /\
  (forall p, priority = Some p -> In p VALID_PRIORITIES).
Proof.
  unfold TaskUpdate.parse, TaskUpdate.validate_priority.
  destruct priority as [p |].
  - destruct (mem p VALID_PRIORITIES) eqn:Hm; simpl; intros H;
      [| discriminate].
    injection H as <-. split; [reflexivity |].
    intros q Hq. injection Hq as <-. exact (proj1 (mem_In _ _) Hm).
  - intros H. injection H as <-. split; [reflexivity | discriminate].
Qed.

Lemma StatusUpdate_parse_valid status body :
  StatusUpdate.parse status = Ok body ->
  body = StatusUpdate.mk status /\ In status VALID_STATUSES.
Proof.
  unfold StatusUpdate.parse, StatusUpdate.validate_status.
  destruct (mem status VALID_STATUSES) eqn:Hm; simpl; intros H;
    [| discriminate].
  injection H as <-. split; [reflexivity | exact (proj1 (mem_In _ _) Hm)].
Qed.

Lemma get_dashboard_reads st :
  exists d, get_dashboard st = (Ok d, st).
Proof.
  unfold get_dashboard. unfold_monad.
  destruct (fold_left count_task _ _) as [bs bp]. now eexists.
Qed.

Ltac run_dispatch :=
  unfold result, after, dispatch; unfold bind, lift, ret.

Lemma dispatch_effect env req st :
  effect env req st (result (dispatch env req) st)
                    (after (dispatch env req) st).
Proof.
  destruct req as [name role | | agent_id | title description priority
                  | sf af pf | task_id status | task_id agent_id | task_id
                  | task_id title description priority | task_id | ].
  - (* POST /agents *)
    run_dispatch. unfold create_agent. unfold_monad. cbn [fst snd].
    now apply effect_agent.
  - (* GET /agents *)
    run_dispatch. unfold list_agents. unfold_monad. cbn [fst snd].
    apply effect_none. now right.
  - (* GET /agents/{id} *)
    unfold result, after, dispatch, get_agent. unfold_monad.
    destruct (PyDict.get (storage.agents st) agent_id); cbn [fst snd];
      apply effect_none; now right.
  - (* POST /tasks *)
    run_dispatch.
    destruct (TaskCreate.parse title description priority) as [body | e]
      eqn:Hparse; cbn [fst snd].
    + rewrite create_task_run. cbn [fst snd].
      apply effect_create; try reflexivity.
      split; [exact (TaskCreate_parse_valid _ _ _ _ Hparse) | simpl; tauto].
    + apply effect_none. now left.
  - (* GET /tasks *)
    run_dispatch. rewrite list_tasks_run. cbn [fst snd]. apply effect_none. now right.
  - (* PATCH /tasks/{id}/status *)
    run_dispatch.
    destruct (StatusUpdate.parse status) as [body | e] eqn:Hparse; cbn [fst snd];
      [| apply effect_none; now left].
    destruct (StatusUpdate_parse_valid _ _ Hparse) as [-> Hvalid].
    destruct (PyDict.get (storage.tasks st) task_id) as [r |] eqn:Hr.
    + rewrite (update_task_status_found st _ _ _ r Hr). cbn [fst snd].
      apply effect_mutate with (old := r); try reflexivity; trivial.
      intros x [Hp _]. split; [exact Hp | exact Hvalid].
    + rewrite (update_task_status_missing st _ _ _ Hr). cbn [fst snd].
      apply effect_none. now left.
  - (* PATCH /tasks/{id}/assign *)
    run_dispatch.
    destruct (PyDict.get (storage.tasks st) task_id) as [r |] eqn:Hr.
    + destruct (PyDict.get (storage.agents st) agent_id) as [a |] eqn:Ha.
      * rewrite (assign_task_found st _ _ (AssignUpdate.mk agent_id) r a Hr Ha).
        cbn [fst snd]. apply effect_mutate with (old := r); try reflexivity; trivial.
      * rewrite (assign_task_no_agent st _ _ (AssignUpdate.mk agent_id) r Hr Ha).
        cbn [fst snd]. apply effect_none. now left.
    + rewrite (assign_task_no_task st _ _ _ Hr). cbn [fst snd].
      apply effect_none. now left.
  - (* GET /tasks/{id} *)
    unfold result, after, dispatch, get_task, _get_task_or_404. unfold_monad.
    destruct (PyDict.get (storage.tasks st) task_id); cbn [fst snd];
      apply effect_none; now right.
  - (* PUT /tasks/{id} *)
    run_dispatch.
    destruct (TaskUpdate.parse title description priority) as [body | e]
      eqn:Hparse; cbn [fst snd]; [| apply effect_none; now left].
    destruct (TaskUpdate_parse_valid _ _ _ _ Hparse) as [-> Hvalid].
    destruct (PyDict.get (storage.tasks st) task_id) as [r |] eqn:Hr.
    + rewrite (update_task_found st _ _ _ r Hr). cbn [fst snd].
      apply effect_mutate with (old := r); try reflexivity; trivial.
      intros x [Hp Hs]. split; [| exact Hs]. cbn [fst snd].
      destruct priority as [p |]; cbn [fst snd]; [now apply Hvalid | exact Hp].
    + rewrite (update_task_missing st _ _ _ Hr). cbn [fst snd].
      apply effect_none. now left.
  - (* DELETE /tasks/{id} *)
    run_dispatch.
    destruct (PyDict.get (storage.tasks st) task_id) as [r |] eqn:Hr.
    + destruct (delete_task_found st task_id r Hr)
        as [l1 [l2 [Hd [Hn Hrun]]]].
      rewrite Hrun. cbn [fst snd]. now apply effect_delete with (k := task_id) (old := r).
    + rewrite (delete_task_missing st _ Hr). cbn [fst snd].
      apply effect_none. now left.
  - (* GET /dashboard *)
    run_dispatch. destruct (get_dashboard_reads st) as [d ->]. cbn [fst snd].
    apply effect_none. now right.
Qed.

(* ================================================================== *)
(** * Stores reached from process start                                 *)
(* ================================================================== *)

Section ValuesForall.
Variable V : Type.
Variable P : V -> Prop.
Implicit Types (d l : PyDict.t V).

Lemma Forall_values d :
  Forall P (PyDict.values d) <-> forall k v, In (k, v) d -> P v.
Proof.
  unfold PyDict.values. rewrite Forall_forall. split.
  - intros H k v Hin. apply H. now apply (in_map snd) in Hin.
  - intros H v Hin. apply in_map_iff in Hin.
    destruct Hin as [[k v'] [Heq Hin]]. simpl in Heq. subst.
    exact (H k v Hin).
Qed.

Lemma Forall_values_setitem d k v :
  Forall P (PyDict.values d) -> P v ->
  Forall P (PyDict.values (PyDict.setitem d k v)).
Proof.
  rewrite !Forall_values. intros H Hv k' v' Hin.
  destruct (PyDictFacts.In_setitem _ _ _ _ _ _ Hin) as [[_ ->] | Hold];
    [exact Hv | exact (H _ _ Hold)].
Qed.

Lemma Forall_values_modify d k f :
  Forall P (PyDict.values d) -> (forall x, P x -> P (f x)) ->
  Forall P (PyDict.values (PyDict.modify d k f)).
Proof.
  rewrite !Forall_values. intros H Hf k' v' Hin.
  destruct (PyDictFacts.In_modify _ _ _ _ _ _ Hin)
    as [Hold | [_ [v0 [Hold ->]]]]; [exact (H _ _ Hold) |].
  apply Hf. exact (H _ _ Hold).
Qed.

Lemma Forall_values_middle l1 l2 k v :
  Forall P (PyDict.values (l1 ++ (k, v) :: l2)) ->
  Forall P (PyDict.values (l1 ++ l2)).
Proof.
  rewrite !Forall_values. intros H k' v' Hin. apply (H k').
  apply in_app_iff in Hin. apply in_app_iff.
  destruct Hin as [? | ?]; [now left | right; now right].
Qed.
End ValuesForall.

Lemma run_snoc es e : run (es ++ [e]) = step (run es) e.
Proof. unfold run. now rewrite fold_left_app. Qed.

Lemma step_effect st e :
  effect (fst e) (snd e) st (result (dispatch (fst e) (snd e)) st) (step st e).
Proof. apply dispatch_effect. Qed.

Lemma step_store_wf st e : store_wf st -> store_wf (step st e).
Proof.
  intros [Ha Ht]. unfold store_wf.
  destruct (step_effect st e) as [r _ | r k a _ _ | r k record _ _ _ _
                                 | r k old f _ _ _ _ _ _
                                 | r k old l1 l2 _ _ Hd _]; simpl.
  - now split.
  - split; [now apply PyDictFacts.wf_setitem | exact Ht].
  - split; [exact Ha | now apply PyDictFacts.wf_setitem].
  - split; [exact Ha | now apply PyDictFacts.wf_modify].
  - split; [exact Ha |]. rewrite Hd in Ht.
    exact (proj1 (wf_middle _ _ _ _ Ht)).
Qed.

Lemma step_enum_inv st e : enum_inv st -> enum_inv (step st e).
Proof.
  unfold enum_inv. intros H.
  destruct (step_effect st e) as [r _ | r k a _ _ | r k record _ _ _ Hok
                                 | r k old f _ _ _ _ _ Hf
                                 | r k old l1 l2 _ _ Hd _]; simpl.
  - exact H.
  - exact H.
  - now apply Forall_values_setitem.
  - now apply Forall_values_modify.
  - rewrite Hd in H. exact (Forall_values_middle _ _ _ _ _ _ H).
Qed.

Lemma run_store_wf es : store_wf (run es).
Proof.
  induction es as [| e es IH] using rev_ind.
  - split; constructor.
  - rewrite run_snoc. now apply step_store_wf.
Qed.

Lemma run_enum_inv es : enum_inv (run es).
Proof.
  induction es as [| e es IH] using rev_ind.
  - constructor.
  - rewrite run_snoc. now apply step_enum_inv.
Qed.

(** C2. In the store reached by any sequence of requests from process
    start, every stored task has a priority among low, medium, high and
    a status among todo, in_progress, review, done. *)
Theorem reachable_tasks_carry_enum_members es :
  forall k T, In (k, T) (storage.tasks (run es)) ->
    In (TaskDict.priority T) ["low"; "medium"; "high"] /\
    In (TaskDict.status T) ["todo"; "in_progress"; "review"; "done"].
Proof.
  intros k T Hin.
  exact (proj1 (Forall_values _ _ _) (run_enum_inv es) k T Hin).
Qed.

Lemma reachable_tasks_carry_enum_members_witness :
  let es := [(mkEnv "id-1" "t0", POST_tasks "T" "D" (Some "high"));
             (mkEnv "id-2" "t1", POST_tasks "U" "E" (Some "urgent"));
             (mkEnv "id-3" "t2", PATCH_tasks_status "id-1" "done");
             (mkEnv "id-4" "t3", PATCH_tasks_status "id-1" "bogus")] in
  let T := TaskDict.mk "id-1" "T" "D" "high" "done" "t0" (Some "t2") None in
  storage.tasks (run es) = [("id-1", T)] /\
  In (TaskDict.priority T) ["low"; "medium"; "high"] /\
  In (TaskDict.status T) ["todo"; "in_progress"; "review"; "done"].
Proof.
  intros es T. split; [reflexivity |].
  apply (reachable_tasks_carry_enum_members es "id-1" T).
  simpl. now left.
Defined.

(* ================================================================== *)
(** * updated_at and the history of a task                              *)
(* ================================================================== *)

Lemma track_store k es acc :
  fst (fold_left (track k) es acc) = fold_left step es (fst acc).
Proof.
  revert acc. induction es as [| e es IH]; intros [st m]; [reflexivity |].
  simpl fold_left. rewrite IH. f_equal.
  unfold track, step, after.
  now destruct (dispatch (fst e) (snd e) st).
Qed.

Lemma mutated_snoc k es e :
  mutated_since_creation k (es ++ [e]) =
  if succeeded (result (dispatch (fst e) (snd e)) (run es)) then
    match creates (fst e) (snd e), mutates (snd e) with
    | Some k', _ => if k' =? k then false else mutated_since_creation k es
    | None, Some k' => if k' =? k then true else mutated_since_creation k es
    | None, None => mutated_since_creation k es
    end
  else mutated_since_creation k es.
Proof.
  unfold mutated_since_creation, run. rewrite fold_left_app. simpl.
  pose proof (track_store k es (storage.empty, false)) as Hst.
  simpl in Hst. rewrite <- Hst. clear Hst.
  destruct (fold_left (track k) es (storage.empty, false)) as [st m].
  unfold track, result. simpl.
  now destruct (dispatch (fst e) (snd e) st).
Qed.

Lemma updated_at_tracks_history es :
  forall k T, PyDict.get (storage.tasks (run es)) k = Some T ->
    (TaskDict.updated_at T = None <-> mutated_since_creation k es = false).
Proof.
  induction es as [| e es IH] using rev_ind; [discriminate |].
  intros k T. rewrite run_snoc, mutated_snoc.
  pose proof (run_store_wf es) as [_ Hwf].
  destruct (step_effect (run es) e)
    as [r Hr | r k0 a Hc Hm | r k0 record Hs Hc Hnull _
       | r k0 old f Hs Hc Hm Hold Hnow _
       | r k0 old l1 l2 Hc Hm Hd Hn]; simpl.
  - (* the store is left as it was *)
    destruct Hr as [-> | [-> ->]]; [apply IH |].
    destruct (succeeded r); apply IH.
  - rewrite Hc, Hm. destruct (succeeded r); apply IH.
  - (* a task is created under k0 *)
    rewrite Hs, Hc.
    destruct (String.eqb_spec k0 k) as [-> | Hne].
    + rewrite PyDictFacts.get_setitem_eq. intros [= <-]. tauto.
    + rewrite (PyDictFacts.get_setitem_neq _ _ _ _ _ Hne). apply IH.
  - (* the task under k0 is mutated *)
    rewrite Hs, Hc, Hm.
    destruct (String.eqb_spec k0 k) as [-> | Hne].
    + rewrite (PyDictFacts.get_modify_eq _ _ _ _ _ Hold). intros [= <-].
      rewrite Hnow. split; discriminate.
    + rewrite (PyDictFacts.get_modify_neq _ _ _ _ _ Hne). apply IH.
  - (* the entry of k0 is removed *)
    rewrite Hc, Hm. rewrite Hd in Hwf.
    destruct (wf_middle _ _ _ _ Hwf) as [_ Hgone].
    assert (Hsame : mutated_since_creation k es =
                    if succeeded r then mutated_since_creation k es
                    else mutated_since_creation k es)
      by now destruct (succeeded r).
    rewrite <- Hsame.
    destruct (String.eqb_spec k0 k) as [-> | Hne].
    + rewrite Hgone. discriminate.
    + intros Hget. apply IH. rewrite Hd.
      now rewrite (PyDictFacts.get_app_other _ _ _ _ _ old Hne).
Qed.

Lemma mutation_sets_updated_at env req st k resp :
  mutates req = Some k ->
  result (dispatch env req) st = Ok resp ->
  exists T,
    PyDict.get (storage.tasks (after (dispatch env req) st)) k = Some T /\
    TaskDict.updated_at T = Some (_now_iso env).
Proof.
  intros Hk Hok.
  destruct (dispatch_effect env req st)
    as [r Hr | r k0 a Hc Hm | r k0 record Hs Hc Hnull _
       | r k0 old f Hs Hc Hm Hold Hnow _
       | r k0 old l1 l2 Hc Hm Hd Hn]; subst; simpl in *;
    try congruence.
  - destruct Hr as [Hr | [_ Hr]]; congruence.
  - destruct req; simpl in *; congruence.
  - assert (k0 = k) by congruence. subst k0.
    exists (f old). split; [now apply PyDictFacts.get_modify_eq | apply Hnow].
Qed.

(** C3. In the store reached by any sequence of requests from process
    start, a stored task has updated_at null exactly when no update,
    status change or assignment has succeeded on its id since the task
    was created under that id.  Moreover each successful update, status
    change or assignment leaves its task with updated_at equal to the
    current time. *)
Theorem updated_at_null_iff_never_mutated :
  (forall es k T,
     In (k, T) (storage.tasks (run es)) ->
     (TaskDict.updated_at T = None <-> mutated_since_creation k es = false))
  /\
  (forall env req st k resp,
     mutates req = Some k ->
     result (dispatch env req) st = Ok resp ->
     exists T,
       PyDict.get (storage.tasks (after (dispatch env req) st)) k = Some T /\
       TaskDict.updated_at T = Some (_now_iso env)).
Proof.
  split.
  - intros es k T Hin. apply updated_at_tracks_history.
    apply PyDictFacts.In_get; [apply run_store_wf | exact Hin].
  - apply mutation_sets_updated_at.
Qed.

Lemma updated_at_null_iff_never_mutated_witness :
  let es := [(mkEnv "id-1" "t0", POST_tasks "T" "D" None);
             (mkEnv "id-2" "t1", POST_tasks "U" "E" (Some "low"));
             (mkEnv "id-3" "t2", PUT_tasks "id-1" None None None);
             (mkEnv "id-4" "t3", PATCH_tasks_assign "id-2" "nobody")] in
  let T1 := TaskDict.mk "id-1" "T" "D" "medium" "todo" "t0" (Some "t2") None in
  let T2 := TaskDict.mk "id-2" "U" "E" "low" "todo" "t1" None None in
  storage.tasks (run es) = [("id-1", T1); ("id-2", T2)] /\
  mutated_since_creation "id-1" es = true /\
  (TaskDict.updated_at T2 = None <-> mutated_since_creation "id-2" es = false) /\
  exists T,
    PyDict.get
      (storage.tasks
         (after (dispatch (mkEnv "id-5" "t4") (PATCH_tasks_status "id-2" "done"))
                (run es))) "id-2" = Some T /\
    TaskDict.updated_at T = Some "t4".
Proof.
  intros es T1 T2. split; [reflexivity |]. split; [reflexivity |].
  split.
  - apply (proj1 updated_at_null_iff_never_mutated es "id-2" T2).
    simpl. right. now left.
  - exact (proj2 updated_at_null_iff_never_mutated
             (mkEnv "id-5" "t4") (PATCH_tasks_status "id-2" "done") (run es)
             "id-2" _ eq_refl eq_refl).
Defined.

(* ================================================================== *)
(** * The dashboard                                                     *)
(* ================================================================== *)

Section Tally.
Import PyDict.

Lemma mem_keys_get (d : PyDict.t nat) k :
  mem k (keys d) = match get d k with Some _ => true | None => false end.
Proof.
  unfold mem, keys. induction d as [| [k1 n1] d IH]; simpl; [reflexivity |].
  rewrite (String.eqb_sym k k1).
  destruct (k1 =? k); simpl; [reflexivity | exact IH].
Qed.

Lemma keys_bump d k : keys (bump d k) = keys d.
Proof.
  unfold bump. destruct (get d k) as [n |] eqn:Hg; [| reflexivity].
  exact (PyDictFacts.keys_setitem_present _ _ _ _ _ Hg).
Qed.

Lemma get_bump d k k' :
  get (bump d k) k' =
  match get d k' with
  | Some n => Some (n + if k =? k' then 1 else 0)
  | None => None
  end.
Proof.
  unfold bump. destruct (String.eqb_spec k k') as [<- | Hne].
  - destruct (get d k) as [n |] eqn:Hg; [| now rewrite Hg].
    apply PyDictFacts.get_setitem_eq.
  - destruct (get d k) as [n |] eqn:Hg.
    + rewrite (PyDictFacts.get_setitem_neq _ _ _ _ _ Hne).
      destruct (get d k'); [now rewrite Nat.add_0_r | reflexivity].
    + destruct (get d k'); [now rewrite Nat.add_0_r | reflexivity].
Qed.

Lemma sum_setitem d k n m :
  get d k = Some n ->
  list_sum (values (setitem d k m)) + n = list_sum (values d) + m.
Proof.
  unfold values. induction d as [| [k1 n1] d IH]; simpl; [discriminate |].
  destruct (k1 =? k); simpl.
  - intros [= ->]. lia.
  - intros H. specialize (IH H). lia.
Qed.

Lemma sum_bump d k :
  list_sum (values (bump d k)) =
  list_sum (values d) + if mem k (keys d) then 1 else 0.
Proof.
  rewrite mem_keys_get. unfold bump.
  destruct (get d k) as [n |] eqn:Hg; [| lia].
  pose proof (sum_setitem d k n (n + 1) Hg). lia.
Qed.

(** The loop over the tasks, one dimension at a time. *)
Variable field : TaskDict.t -> string.

Lemma keys_tally l : forall d,
  keys (fold_left (fun d t => bump d (field t)) l d) = keys d.
Proof.
  induction l as [| t l IH]; intros d; simpl; [reflexivity |].
  now rewrite IH, keys_bump.
Qed.

Lemma get_tally l : forall d k,
  get (fold_left (fun d t => bump d (field t)) l d) k =
  match get d k with
  | Some n => Some (n + length (filter (fun t => field t =? k) l))
  | None => None
  end.
Proof.
  induction l as [| t l IH]; intros d k; simpl.
  - destruct (get d k); [now rewrite Nat.add_0_r | reflexivity].
  - rewrite IH, get_bump. destruct (get d k) as [n |]; [| reflexivity].
    destruct (field t =? k); simpl; f_equal; lia.
Qed.

Lemma sum_tally l : forall d,
  list_sum (values (fold_left (fun d t => bump d (field t)) l d)) =
  list_sum (values d)
  + length (filter (fun t => mem (field t) (keys d)) l).
Proof.
  induction l as [| t l IH]; intros d; simpl; [lia |].
  rewrite IH, keys_bump, sum_bump.
  destruct (mem (field t) (keys d)); simpl; lia.
Qed.
End Tally.

Lemma count_task_splits l : forall bs bp,
  fold_left count_task l (bs, bp) =
  (fold_left (fun d t => bump d (TaskDict.status t)) l bs,
   fold_left (fun d t => bump d (TaskDict.priority t)) l bp).
Proof.
  induction l as [| t l IH]; intros bs bp; simpl; [reflexivity | apply IH].
Qed.

Lemma get_dashboard_run st :
  get_dashboard st =
  (Ok (DashboardResponse.mk
         (length (PyDict.values (storage.tasks st)))
         (fold_left (fun d t => bump d (TaskDict.status t))
            (PyDict.values (storage.tasks st))
            [("todo", 0); ("in_progress", 0); ("review", 0); ("done", 0)])
         (fold_left (fun d t => bump d (TaskDict.priority t))
            (PyDict.values (storage.tasks st))
            [("low", 0); ("medium", 0); ("high", 0)])),
   st).
Proof.
  unfold get_dashboard. unfold_monad. now rewrite count_task_splits.
Qed.

Lemma filter_whole {A} (f : A -> bool) l :
  (forall x, In x l -> f x = true) -> filter f l = l.
Proof.
  induction l as [| x l IH]; simpl; intros H; [reflexivity |].
  rewrite (H x (or_introl eq_refl)). f_equal. apply IH.
  intros y Hy. apply H. now right.
Qed.

Lemma count_in_enum st :
  enum_inv st ->
  count_status_in VALID_STATUSES (PyDict.values (storage.tasks st))
    = length (PyDict.values (storage.tasks st)) /\
  count_priority_in VALID_PRIORITIES (PyDict.values (storage.tasks st))
    = length (PyDict.values (storage.tasks st)).
Proof.
  unfold enum_inv, count_status_in, count_priority_in.
  rewrite Forall_forall. intros H.
  split; (rewrite filter_whole; [reflexivity |]); intros t Ht;
    apply mem_In; now destruct (H t Ht).
Qed.

(** C8.  [get_dashboard] succeeds without touching the store; total is
    the number of stored tasks, which is the length of the unfiltered
    task listing; by_status has the four status keys and by_priority the
    three priority keys, each mapped to the number of tasks with that
    value, zero when there is none.  A task whose status (priority) is
    outside the enumeration is left out of that dimension without any
    error: the values of by_status (by_priority) add up to the number of
    tasks whose status (priority) is in the enumeration.  In every store
    reached from process start, where every stored task carries
    enumeration members, the values of by_status add up to total and so
    do the values of by_priority. *)
Theorem dashboard_counts st :
  exists d,
    get_dashboard st = (Ok d, st) /\
    (exists l, list_tasks None None None st = (Ok l, st) /\
               DashboardResponse.total d = length l) /\
    PyDict.keys (DashboardResponse.by_status d) = VALID_STATUSES /\
    PyDict.keys (DashboardResponse.by_priority d) = VALID_PRIORITIES /\
    (forall s, In s VALID_STATUSES ->
       PyDict.get (DashboardResponse.by_status d) s
       = Some (count_status s (PyDict.values (storage.tasks st)))) /\
    (forall p, In p VALID_PRIORITIES ->
       PyDict.get (DashboardResponse.by_priority d) p
       = Some (count_priority p (PyDict.values (storage.tasks st)))) /\
    list_sum (PyDict.values (DashboardResponse.by_status d))
      = count_status_in VALID_STATUSES (PyDict.values (storage.tasks st)) /\
    list_sum (PyDict.values (DashboardResponse.by_priority d))
      = count_priority_in VALID_PRIORITIES (PyDict.values (storage.tasks st)) /\
    (enum_inv st ->
       list_sum (PyDict.values (DashboardResponse.by_status d))
         = DashboardResponse.total d /\
       list_sum (PyDict.values (DashboardResponse.by_priority d))
         = DashboardResponse.total d) /\
    ((exists es, st = run es) ->
       list_sum (PyDict.values (DashboardResponse.by_status d))
         = DashboardResponse.total d /\
       list_sum (PyDict.values (DashboardResponse.by_priority d))
         = DashboardResponse.total d).
Proof.
  eexists. split; [apply get_dashboard_run |]. simpl.
  assert (Hsum_s :
    list_sum (PyDict.values
      (fold_left (fun d t => bump d (TaskDict.status t))
         (PyDict.values (storage.tasks st))
         [("todo", 0); ("in_progress", 0); ("review", 0); ("done", 0)]))
    = count_status_in VALID_STATUSES (PyDict.values (storage.tasks st))).
  { rewrite sum_tally. reflexivity. }
  assert (Hsum_p :
    list_sum (PyDict.values
      (fold_left (fun d t => bump d (TaskDict.priority t))
         (PyDict.values (storage.tasks st))
         [("low", 0); ("medium", 0); ("high", 0)]))
    = count_priority_in VALID_PRIORITIES (PyDict.values (storage.tasks st))).
  { rewrite sum_tally. reflexivity. }
  assert (Henum : enum_inv st ->
    list_sum (PyDict.values
      (fold_left (fun d t => bump d (TaskDict.status t))
         (PyDict.values (storage.tasks st))
         [("todo", 0); ("in_progress", 0); ("review", 0); ("done", 0)]))
    = length (PyDict.values (storage.tasks st)) /\
    list_sum (PyDict.values
      (fold_left (fun d t => bump d (TaskDict.priority t))
         (PyDict.values (storage.tasks st))
         [("low", 0); ("medium", 0); ("high", 0)]))
    = length (PyDict.values (storage.tasks st))).
  { intros Hinv. rewrite Hsum_s, Hsum_p. now apply count_in_enum. }
  split.
  { eexists. split; [apply list_tasks_run |].
    rewrite length_map. simpl. now rewrite filter_all. }
  split; [apply keys_tally |]. split; [apply keys_tally |].
  split.
  { intros s Hs. rewrite get_tally. unfold count_status.
    simpl in Hs. destruct Hs as [<- | [<- | [<- | [<- | []]]]]; reflexivity. }
  split.
  { intros p Hp. rewrite get_tally. unfold count_priority.
    simpl in Hp. destruct Hp as [<- | [<- | [<- | []]]]; reflexivity. }
  split; [exact Hsum_s |]. split; [exact Hsum_p |].
  split; [exact Henum |].
  intros [es ->]. apply Henum. apply run_enum_inv.
Qed.

Lemma dashboard_counts_witness :
  let es := [(mkEnv "id-1" "t0", POST_tasks "A" "a" (Some "low"));
             (mkEnv "id-2" "t1", POST_tasks "B" "b" None);
             (mkEnv "id-3" "t2", POST_tasks "C" "c" (Some "high"));
             (mkEnv "id-4" "t3", PATCH_tasks_status "id-2" "done")] in
  exists d,
    get_dashboard (run es) = (Ok d, run es) /\
    DashboardResponse.total d = 3 /\
    PyDict.get (DashboardResponse.by_status d) "done" = Some 1 /\
    PyDict.get (DashboardResponse.by_priority d) "medium" = Some 1 /\
    list_sum (PyDict.values (DashboardResponse.by_status d)) = 3 /\
    list_sum (PyDict.values (DashboardResponse.by_priority d)) = 3.
Proof.
  intros es.
  destruct (dashboard_counts (run es))
    as [d [Hrun [[l [Hl Htot]] [_ [_ [Hs [Hp [_ [_ [Henum Hreach]]]]]]]]]].
  assert (Hinv : enum_inv (run es)) by (repeat constructor; simpl; tauto).
  destruct (Henum Hinv) as [Hsum_s _].
  destruct (Hreach (ex_intro _ es eq_refl)) as [_ Hsum_p].
  exists d. split; [exact Hrun |].
  assert (H3 : DashboardResponse.total d = 3).
  { rewrite Htot. injection Hl as <-. reflexivity. }
  split; [exact H3 |].
  split; [rewrite Hs; [reflexivity | simpl; tauto] |].
  split; [rewrite Hp; [reflexivity | simpl; tauto] |].
  split; [now rewrite Hsum_s | now rewrite Hsum_p].
Defined.

(* ================================================================== *)
(** * The store transition of a request                                 *)
(* ================================================================== *)

Lemma set_tasks_same st : storage.set_tasks (storage.tasks st) st = st.
Proof. now destruct st. Qed.

Lemma delitem_Some_present {V} (d d' : PyDict.t V) k :
  PyDict.delitem d k = Some d' ->
  exists v l1 l2,
    PyDict.get d k = Some v /\ d = l1 ++ (k, v) :: l2 /\ d' = l1 ++ l2 /\
    ~ In k (PyDict.keys l1).
Proof.
  intros Hdel. destruct (PyDict.get d k) as [v |] eqn:Hg.
  - destruct (PyDictFacts.delitem_present _ _ _ _ Hg)
      as [l1 [l2 [Hd [Hdel' Hn]]]].
    exists v, l1, l2. rewrite Hdel in Hdel'. injection Hdel' as ->.
    now repeat split.
  - rewrite (PyDictFacts.delitem_absent _ _ _ Hg) in Hdel. discriminate.
Qed.

Lemma dispatch_transition env req st :
  after (dispatch env req) st = transition env req st.
Proof.
  destruct req as [name role | | agent_id | title description priority
                  | sf af pf | task_id status | task_id agent_id | task_id
                  | task_id title description priority | task_id | ];
    unfold transition.
  - reflexivity.
  - reflexivity.
  - unfold after, dispatch, get_agent. unfold_monad.
    now destruct (PyDict.get (storage.agents st) agent_id).
  - run_dispatch.
    now destruct (TaskCreate.parse title description priority).
  - run_dispatch. now rewrite list_tasks_run.
  - run_dispatch. destruct (StatusUpdate.parse status) as [body | e];
      [| reflexivity].
    destruct (PyDict.get (storage.tasks st) task_id) as [r |] eqn:Hr.
    + now rewrite (update_task_status_found st _ _ _ r Hr).
    + rewrite (update_task_status_missing st _ _ _ Hr). cbn [fst snd].
      rewrite (PyDictFacts.modify_absent _ _ _ _ Hr).
      now rewrite set_tasks_same.
  - run_dispatch.
    destruct (PyDict.get (storage.tasks st) task_id) as [r |] eqn:Hr.
    + destruct (PyDict.get (storage.agents st) agent_id) as [a |] eqn:Ha.
      * now rewrite (assign_task_found st _ _ (AssignUpdate.mk agent_id) r a Hr Ha).
      * now rewrite (assign_task_no_agent st _ _ (AssignUpdate.mk agent_id) r Hr Ha).
    + rewrite (assign_task_no_task st _ _ _ Hr). cbn [fst snd].
      destruct (PyDict.get (storage.agents st) agent_id); [| reflexivity].
      rewrite (PyDictFacts.modify_absent _ _ _ _ Hr).
      now rewrite set_tasks_same.
  - unfold after, dispatch, get_task, _get_task_or_404. unfold_monad.
    now destruct (PyDict.get (storage.tasks st) task_id).
  - run_dispatch.
    destruct (TaskUpdate.parse title description priority) as [body | e];
      [| reflexivity].
    destruct (PyDict.get (storage.tasks st) task_id) as [r |] eqn:Hr.
    + now rewrite (update_task_found st _ _ _ r Hr).
    + rewrite (update_task_missing st _ _ _ Hr). cbn [fst snd].
      rewrite (PyDictFacts.modify_absent _ _ _ _ Hr).
      now rewrite set_tasks_same.
  - run_dispatch.
    destruct (PyDict.get (storage.tasks st) task_id) as [r |] eqn:Hr.
    + destruct (delete_task_found st task_id r Hr)
        as [l1 [l2 [Hd [Hn Hrun]]]].
      rewrite Hrun. cbn [fst snd].
      destruct (PyDictFacts.delitem_present _ _ _ _ Hr)
        as [m1 [m2 [Hd' [Hdel _]]]].
      rewrite Hdel. 
      unfold delete_task, _get_task_or_404 in Hrun. unfold_monad.
      rewrite Hr, Hdel in Hrun. now injection Hrun as <-.
    + rewrite (delete_task_missing st _ Hr). cbn [fst snd].
      now rewrite (PyDictFacts.delitem_absent _ _ _ Hr).
  - run_dispatch. now destruct (get_dashboard_reads st) as [d ->].
Qed.

Lemma step_transition st e : step st e = transition (fst e) (snd e) st.
Proof. apply dispatch_transition. Qed.

(* ================================================================== *)
(** * Agents                                                            *)
(* ================================================================== *)

Lemma values_snoc {V} (d : PyDict.t V) k v :
  PyDict.values (d ++ [(k, v)]) = PyDict.values d ++ [v].
Proof. unfold PyDict.values. now rewrite map_app. Qed.

Lemma get_agent_found st agent_id a :
  PyDict.get (storage.agents st) agent_id = Some a ->
  get_agent agent_id st = (Ok (_agent_from_dict a), st).
Proof. intros H. unfold get_agent. unfold_monad. now rewrite H. Qed.

Lemma get_agent_missing st agent_id :
  PyDict.get (storage.agents st) agent_id = None ->
  get_agent agent_id st = (Raise (NotFound "Agent not found"), st).
Proof. intros H. unfold get_agent. unfold_monad. now rewrite H. Qed.

Lemma create_agent_run uuid body st :
  create_agent uuid body st =
  (Ok (Agent.mk uuid (AgentCreate.name body) (AgentCreate.role body)),
   storage.set_agents
     (PyDict.setitem (storage.agents st) uuid
        (AgentDict.mk uuid (AgentCreate.name body) (AgentCreate.role body)))
     st).
Proof. reflexivity. Qed.

(** X1. [create_agent] returns the agent with the drawn id and the name
    and role of the body; [get_agent] on that id then returns the same
    agent, every other id answers as before, and the tasks are not
    touched.  When the id was not in use the new agent comes last in
    [list_agents], after the agents listed before; when it was in use
    the agent replaces the one stored under it, in its place. *)
Theorem create_agent_then_get uuid body st :
  let A := Agent.mk uuid (AgentCreate.name body) (AgentCreate.role body) in
  let st' := after (create_agent uuid body) st in
  result (create_agent uuid body) st = Ok A /\
  result (get_agent uuid) st' = Ok A /\
  (forall k, k <> uuid ->
     result (get_agent k) st' = result (get_agent k) st) /\
  storage.tasks st' = storage.tasks st /\
  (PyDict.get (storage.agents st) uuid = None ->
   exists l, result list_agents st = Ok l /\
             result list_agents st' = Ok (l ++ [A])) /\
  (forall old, PyDict.get (storage.agents st) uuid = Some old ->
   PyDict.keys (storage.agents st') = PyDict.keys (storage.agents st)).
Proof.
  intros A st'. unfold st', after, result. rewrite create_agent_run.
  cbn [fst snd].
  split; [reflexivity |].
  split.
  { rewrite (get_agent_found _ uuid
               (AgentDict.mk uuid (AgentCreate.name body)
                  (AgentCreate.role body))); [reflexivity |].
    apply PyDictFacts.get_setitem_eq. }
  split.
  { intros k Hk. unfold get_agent. unfold_monad. cbn [storage.agents storage.set_agents].
    rewrite PyDictFacts.get_setitem_neq by congruence.
    now destruct (PyDict.get (storage.agents st) k). }
  split; [reflexivity |].
  split.
  - intros Hfresh. eexists. split; [reflexivity |].
    unfold list_agents. unfold_monad. cbn [fst storage.agents storage.set_agents].
    rewrite (PyDictFacts.keys_setitem_absent _ _ _ _ Hfresh).
    now rewrite values_snoc, map_app.
  - intros old Hold. cbn [storage.agents storage.set_agents].
    exact (PyDictFacts.keys_setitem_present _ _ _ _ _ Hold).
Qed.

Lemma create_agent_then_get_witness :
  let a := AgentDict.mk "ag-1" "Alice" "senior_dev" in
  let st := storage.mk [("ag-1", a)] [] in
  (exists l,
     result list_agents st = Ok l /\
     result list_agents (after (create_agent "ag-2" (AgentCreate.mk "Bob" "")) st)
       = Ok (l ++ [Agent.mk "ag-2" "Bob" ""])) /\
  PyDict.keys (storage.agents
                 (after (create_agent "ag-1" (AgentCreate.mk "Eve" "qa")) st))
    = ["ag-1"].
Proof.
  intros a st. split.
  - destruct (create_agent_then_get "ag-2" (AgentCreate.mk "Bob" "") st)
      as [_ [_ [_ [_ [H _]]]]].
    exact (H eq_refl).
  - destruct (create_agent_then_get "ag-1" (AgentCreate.mk "Eve" "qa") st)
      as [_ [_ [_ [_ [_ H]]]]].
    exact (H a eq_refl).
Defined.

Lemma transition_agents env req st :
  storage.agents (transition env req st) =
  match req with
  | POST_agents name role =>
      PyDict.setitem (storage.agents st) (uuid4 env)
        (AgentDict.mk (uuid4 env) name role)
  | _ => storage.agents st
  end.
Proof.
  destruct req as [name role | | agent_id | title description priority
                  | sf af pf | task_id status | task_id agent_id | task_id
                  | task_id title description priority | task_id | ];
    simpl; try reflexivity.
  - now destruct (TaskCreate.parse title description priority).
  - now destruct (StatusUpdate.parse status).
  - now destruct (PyDict.get (storage.agents st) agent_id).
  - now destruct (TaskUpdate.parse title description priority).
  - now destruct (PyDict.delitem (storage.tasks st) task_id).
Qed.

Lemma step_keeps_agent st e k a :
  PyDict.get (storage.agents st) k = Some a ->
  (exists a', PyDict.get (storage.agents (step st e)) k = Some a') /\
  (draws_agent k e = false ->
   PyDict.get (storage.agents (step st e)) k = Some a).
Proof.
  intros Ha. rewrite step_transition, transition_agents.
  unfold draws_agent. destruct e as [env req]. cbn [fst snd].
  destruct req; try (split; [now exists a | now intros _]).
  destruct (String.eqb_spec (uuid4 env) k) as [<- | Hne].
  - split; [| discriminate]. eexists. apply PyDictFacts.get_setitem_eq.
  - rewrite (PyDictFacts.get_setitem_neq _ _ _ _ _ Hne).
    split; [now exists a | now intros _].
Qed.

Lemma trace_keeps_agent es : forall st k a,
  PyDict.get (storage.agents st) k = Some a ->
  (exists a', PyDict.get (storage.agents (fold_left step es st)) k = Some a') /\
  (existsb (draws_agent k) es = false ->
   PyDict.get (storage.agents (fold_left step es st)) k = Some a).
Proof.
  induction es as [| e es IH]; intros st k a Ha; simpl.
  - split; [now exists a | now intros _].
  - destruct (step_keeps_agent st e k a Ha) as [[a1 Ha1] Hsame].
    split; [exact (proj1 (IH _ _ _ Ha1)) |].
    intros Hnone. apply orb_false_iff in Hnone. destruct Hnone as [He Hes].
    exact (proj2 (IH _ _ _ (Hsame He)) Hes).
Qed.

(** X3. No request removes an agent.  An agent id found in the store is
    still found after any further sequence of requests, and it maps to
    the same agent dict unless one of those requests was an agent
    creation that drew that very id. *)
Theorem agents_outlive_every_request st es k a :
  PyDict.get (storage.agents st) k = Some a ->
  (exists A, result (get_agent k) (fold_left step es st) = Ok A) /\
  (existsb (draws_agent k) es = false ->
   result (get_agent k) (fold_left step es st) = result (get_agent k) st).
Proof.
  intros Ha. destruct (trace_keeps_agent es st k a Ha) as [[a' Ha'] Hsame].
  split.
  - eexists. unfold result. now rewrite (get_agent_found _ _ _ Ha').
  - intros Hnone. unfold result.
    now rewrite (get_agent_found _ _ _ (Hsame Hnone)), (get_agent_found _ _ _ Ha).
Qed.

Lemma agents_outlive_every_request_witness :
  let a := AgentDict.mk "ag-1" "Alice" "senior_dev" in
  let T := TaskDict.mk "id-1" "T" "D" "low" "todo" "t0" None None in
  let st := storage.mk [("ag-1", a)] [("id-1", T)] in
  let es := [(mkEnv "u1" "t1", PATCH_tasks_assign "id-1" "ag-1");
             (mkEnv "u2" "t2", DELETE_tasks "id-1");
             (mkEnv "ag-2" "t3", POST_agents "Bob" "qa")] in
  result (get_agent "ag-1") (fold_left step es st)
  = Ok (Agent.mk "ag-1" "Alice" "senior_dev").
Proof.
  intros a T st es.
  destruct (agents_outlive_every_request st es "ag-1" a eq_refl) as [_ H].
  rewrite (H eq_refl). reflexivity.
Defined.

(* ================================================================== *)
(** * Ids, keys and snapshots in reachable stores                       *)
(* ================================================================== *)

Lemma In_delitem {V} (d d' : PyDict.t V) k k' v' :
  PyDict.delitem d k = Some d' -> In (k', v') d' -> In (k', v') d.
Proof.
  intros Hdel Hin.
  destruct (delitem_Some_present _ _ _ Hdel) as [v [l1 [l2 [_ [-> [-> _]]]]]].
  apply in_app_iff in Hin. apply in_app_iff.
  destruct Hin as [? | ?]; [now left | right; now right].
Qed.

Lemma In_modify_id d k f k' T' :
  In (k', T') (PyDict.modify d k f) ->
  (forall k0 T0, In (k0, T0) d -> TaskDict.id T0 = k0) ->
  (forall x, TaskDict.id (f x) = TaskDict.id x) ->
  TaskDict.id T' = k'.
Proof.
  intros Hin Hd Hf.
  destruct (PyDictFacts.In_modify _ _ _ _ _ _ Hin)
    as [Hold | [-> [T0 [Hold ->]]]]; [exact (Hd _ _ Hold) |].
  rewrite Hf. exact (Hd _ _ Hold).
Qed.

Lemma transition_ids_match env req st :
  ids_match st -> ids_match (transition env req st).
Proof.
  intros [Hag Htk].
  destruct req as [name role | | agent_id | title description priority
                  | sf af pf | task_id status | task_id agent_id | task_id
                  | task_id title description priority | task_id | ];
    simpl; try (now split).
  - split; [| exact Htk]. intros k a Hin. simpl in Hin.
    destruct (PyDictFacts.In_setitem _ _ _ _ _ _ Hin) as [[-> ->] | Hold];
      [reflexivity | exact (Hag _ _ Hold)].
  - destruct (TaskCreate.parse title description priority); [| now split].
    split; [exact Hag |]. intros k T Hin. simpl in Hin.
    destruct (PyDictFacts.In_setitem _ _ _ _ _ _ Hin) as [[-> ->] | Hold];
      [reflexivity | exact (Htk _ _ Hold)].
  - destruct (StatusUpdate.parse status); [| now split].
    split; [exact Hag |]. intros k T Hin. simpl in Hin.
    exact (In_modify_id _ _ _ _ _ Hin Htk (fun x => eq_refl)).
  - destruct (PyDict.get (storage.agents st) agent_id); [| now split].
    split; [exact Hag |]. intros k T Hin. simpl in Hin.
    exact (In_modify_id _ _ _ _ _ Hin Htk (fun x => eq_refl)).
  - destruct (TaskUpdate.parse title description priority); [| now split].
    split; [exact Hag |]. intros k T Hin. simpl in Hin.
    exact (In_modify_id _ _ _ _ _ Hin Htk (fun x => eq_refl)).
  - destruct (PyDict.delitem (storage.tasks st) task_id) as [d |] eqn:Hdel;
      [| now split].
    split; [exact Hag |]. intros k T Hin. simpl in Hin.
    exact (Htk _ _ (In_delitem _ _ _ _ _ Hdel Hin)).
Qed.

Lemma run_ids_match es : ids_match (run es).
Proof.
  induction es as [| e es IH] using rev_ind.
  - split; intros ? ? [].
  - rewrite run_snoc, step_transition. now apply transition_ids_match.
Qed.

Lemma In_modify_snapshot d k f k' T' snap :
  In (k', T') (PyDict.modify d k f) ->
  TaskDict.assigned_to T' = Some snap ->
  (forall x, TaskDict.assigned_to (f x) = TaskDict.assigned_to x) ->
  exists T0, In (k', T0) d /\ TaskDict.assigned_to T0 = Some snap.
Proof.
  intros Hin Hsnap Hf.
  destruct (PyDictFacts.In_modify _ _ _ _ _ _ Hin)
    as [Hold | [-> [T0 [Hold ->]]]]; [now exists T' |].
  exists T0. split; [exact Hold |]. now rewrite <- Hf.
Qed.

Lemma transition_snapshots_resolve env req st :
  ids_match st -> snapshots_resolve st ->
  snapshots_resolve (transition env req st).
Proof.
  intros [Hag _] Hres.
  destruct req as [name role | | agent_id | title description priority
                  | sf af pf | task_id status | task_id agent_id | task_id
                  | task_id title description priority | task_id | ];
    simpl; try exact Hres.
  - intros k T snap Hin Hsnap. simpl in *.
    destruct (Hres k T snap Hin Hsnap) as [a Ha].
    destruct (String.eqb_spec (uuid4 env) (AgentDict.id snap)) as [<- | Hne].
    + eexists. apply PyDictFacts.get_setitem_eq.
    + exists a. now rewrite (PyDictFacts.get_setitem_neq _ _ _ _ _ Hne).
  - destruct (TaskCreate.parse title description priority); [| exact Hres].
    intros k T snap Hin Hsnap. simpl in *.
    destruct (PyDictFacts.In_setitem _ _ _ _ _ _ Hin) as [[_ ->] | Hold];
      [discriminate | exact (Hres _ _ _ Hold Hsnap)].
  - destruct (StatusUpdate.parse status); [| exact Hres].
    intros k T snap Hin Hsnap. simpl in *.
    destruct (In_modify_snapshot _ _ _ _ _ _ Hin Hsnap (fun x => eq_refl))
      as [T0 [Hold Hsnap0]].
    exact (Hres _ _ _ Hold Hsnap0).
  - destruct (PyDict.get (storage.agents st) agent_id) as [agent |] eqn:Ha;
      [| exact Hres].
    intros k T snap Hin Hsnap. simpl in *.
    destruct (PyDictFacts.In_modify _ _ _ _ _ _ Hin)
      as [Hold | [-> [T0 [Hold ->]]]]; [exact (Hres _ _ _ Hold Hsnap) |].
    simpl in Hsnap. injection Hsnap as <-. simpl.
    rewrite (Hag _ _ (PyDictFacts.get_In _ _ _ _ Ha)). now exists agent.
  - destruct (TaskUpdate.parse title description priority); [| exact Hres].
    intros k T snap Hin Hsnap. simpl in *.
    destruct (In_modify_snapshot _ _ _ _ _ _ Hin Hsnap (fun x => eq_refl))
      as [T0 [Hold Hsnap0]].
    exact (Hres _ _ _ Hold Hsnap0).
  - destruct (PyDict.delitem (storage.tasks st) task_id) as [d |] eqn:Hdel;
      [| exact Hres].
    intros k T snap Hin Hsnap. simpl in *.
    exact (Hres _ _ _ (In_delitem _ _ _ _ _ Hdel Hin) Hsnap).
Qed.

Lemma run_snapshots_resolve es : snapshots_resolve (run es).
Proof.
  induction es as [| e es IH] using rev_ind.
  - intros ? ? ? [].
  - rewrite run_snoc, step_transition.
    apply transition_snapshots_resolve; [apply run_ids_match | exact IH].
Qed.

(** X4. In every store reached from process start each agent dict and
    each task dict is stored under its own id, so a successful
    [get_task] or [get_agent] answers with the id it was asked for. *)
Theorem reachable_ids_are_keys es :
  (forall k T, In (k, T) (storage.tasks (run es)) -> TaskDict.id T = k) /\
  (forall k a, In (k, a) (storage.agents (run es)) -> AgentDict.id a = k) /\
  (forall k T, result (get_task k) (run es) = Ok T -> Task.id T = k) /\
  (forall k A, result (get_agent k) (run es) = Ok A -> Agent.id A = k).
Proof.
  destruct (run_ids_match es) as [Hag Htk].
  split; [exact Htk |]. split; [exact Hag |]. split.
  - intros k T. unfold result.
    destruct (PyDict.get (storage.tasks (run es)) k) as [r |] eqn:Hr.
    + rewrite (get_task_found _ _ _ Hr). cbn [fst]. intros [= <-].
      exact (Htk _ _ (PyDictFacts.get_In _ _ _ _ Hr)).
    + rewrite (get_task_missing _ _ Hr). discriminate.
  - intros k A. unfold result.
    destruct (PyDict.get (storage.agents (run es)) k) as [a |] eqn:Ha.
    + rewrite (get_agent_found _ _ _ Ha). cbn [fst]. intros [= <-].
      exact (Hag _ _ (PyDictFacts.get_In _ _ _ _ Ha)).
    + rewrite (get_agent_missing _ _ Ha). discriminate.
Qed.

Lemma reachable_ids_are_keys_witness :
  let es := [(mkEnv "ag-1" "t0", POST_agents "Alice" "senior_dev");
             (mkEnv "id-1" "t1", POST_tasks "T" "D" None);
             (mkEnv "u3" "t2", PUT_tasks "id-1" (Some "T2") None None)] in
  exists T, result (get_task "id-1") (run es) = Ok T /\ Task.id T = "id-1".
Proof.
  intros es. eexists. split; [reflexivity |].
  exact (proj1 (proj2 (proj2 (reachable_ids_are_keys es))) "id-1" _ eq_refl).
Defined.

(** X5. In every store reached from process start, the snapshot under a
    task's assigned_to carries the id of an agent that is in the agent
    collection: [get_agent] on the snapshot's id succeeds and answers
    with that id. *)
Theorem reachable_snapshots_name_stored_agents es k T snap :
  In (k, T) (storage.tasks (run es)) ->
  TaskDict.assigned_to T = Some snap ->
  exists A,
    result (get_agent (AgentDict.id snap)) (run es) = Ok A /\
    Agent.id A = AgentDict.id snap.
Proof.
  intros Hin Hsnap.
  destruct (run_snapshots_resolve es k T snap Hin Hsnap) as [a Ha].
  exists (_agent_from_dict a). unfold result.
  rewrite (get_agent_found _ _ _ Ha). split; [reflexivity |]. simpl.
  exact (proj1 (run_ids_match es) _ _ (PyDictFacts.get_In _ _ _ _ Ha)).
Qed.

Lemma reachable_snapshots_name_stored_agents_witness :
  let es := [(mkEnv "ag-1" "t0", POST_agents "Alice" "senior_dev");
             (mkEnv "id-1" "t1", POST_tasks "T" "D" None);
             (mkEnv "u3" "t2", PATCH_tasks_assign "id-1" "ag-1");
             (mkEnv "ag-1" "t3", POST_agents "Alicia" "lead")] in
  let snap := AgentDict.mk "ag-1" "Alice" "senior_dev" in
  let T := TaskDict.mk "id-1" "T" "D" "medium" "todo" "t1" (Some "t2")
                       (Some snap) in
  storage.tasks (run es) = [("id-1", T)] /\
  exists A, result (get_agent "ag-1") (run es) = Ok A /\ Agent.id A = "ag-1".
Proof.
  intros es snap T. split; [reflexivity |].
  apply (reachable_snapshots_name_stored_agents es "id-1" T snap).
  - simpl. now left.
  - reflexivity.
Defined.

(* ================================================================== *)
(** * Listings and lookups                                              *)
(* ================================================================== *)

Lemma In_values {V} (d : PyDict.t V) v :
  In v (PyDict.values d) <-> exists k, In (k, v) d.
Proof.
  unfold PyDict.values. rewrite in_map_iff. split.
  - intros [[k v'] [Heq Hin]]. simpl in Heq. subst. now exists k.
  - intros [k Hin]. now exists (k, v).
Qed.

(** X2. In every store reached from process start the listings and the
    lookups agree: an agent is in [list_agents] exactly when [get_agent]
    on its id returns it, and a task is in the unfiltered [list_tasks]
    exactly when [get_task] on its id returns it. *)
Theorem listings_agree_with_lookups es :
  (forall A,
     (exists l, result list_agents (run es) = Ok l /\ In A l) <->
     result (get_agent (Agent.id A)) (run es) = Ok A) /\
  (forall T,
     (exists l, result (list_tasks None None None) (run es) = Ok l /\ In T l)
     <-> result (get_task (Task.id T)) (run es) = Ok T).
Proof.
  destruct (run_ids_match es) as [Hag Htk].
  destruct (run_store_wf es) as [Hwa Hwt].
  split.
  - intros A. split.
    + intros [l [Hl Hin]]. unfold result, list_agents in Hl. unfold_monad.
      simpl in Hl. injection Hl as <-.
      apply in_map_iff in Hin. destruct Hin as [a [<- Hin]].
      apply In_values in Hin. destruct Hin as [k Hin].
      pose proof (Hag _ _ Hin) as Hid. simpl. rewrite Hid.
      unfold result.
      now rewrite (get_agent_found _ _ _ (PyDictFacts.In_get _ _ _ _ Hwa Hin)).
    + unfold result. intros Hget.
      destruct (PyDict.get (storage.agents (run es)) (Agent.id A))
        as [a |] eqn:Ha.
      * rewrite (get_agent_found _ _ _ Ha) in Hget. injection Hget as <-.
        eexists. split; [reflexivity |]. apply in_map.
        apply In_values. eexists. exact (PyDictFacts.get_In _ _ _ _ Ha).
      * rewrite (get_agent_missing _ _ Ha) in Hget. discriminate.
  - intros T. split.
    + intros [l [Hl Hin]]. unfold result in Hl. rewrite list_tasks_run in Hl.
      simpl in Hl. injection Hl as <-. rewrite filter_all in Hin.
      apply in_map_iff in Hin. destruct Hin as [r [<- Hin]].
      apply In_values in Hin. destruct Hin as [k Hin].
      pose proof (Htk _ _ Hin) as Hid. simpl. rewrite Hid.
      unfold result.
      now rewrite (get_task_found _ _ _ (PyDictFacts.In_get _ _ _ _ Hwt Hin)).
    + unfold result. intros Hget.
      destruct (PyDict.get (storage.tasks (run es)) (Task.id T))
        as [r |] eqn:Hr.
      * rewrite (get_task_found _ _ _ Hr) in Hget. injection Hget as <-.
        eexists. split; [now rewrite list_tasks_run |]. simpl.
        rewrite filter_all. apply in_map.
        apply In_values. eexists. exact (PyDictFacts.get_In _ _ _ _ Hr).
      * rewrite (get_task_missing _ _ Hr) in Hget. discriminate.
Qed.

Lemma listings_agree_with_lookups_witness :
  let es := [(mkEnv "ag-1" "t0", POST_agents "Alice" "senior_dev");
             (mkEnv "id-1" "t1", POST_tasks "T" "D" None);
             (mkEnv "id-2" "t2", POST_tasks "U" "E" (Some "high"))] in
  let T := Task.mk "id-2" "U" "E" "high" "todo" "t2" None None in
  exists l, result (list_tasks None None None) (run es) = Ok l /\ In T l.
Proof.
  intros es T.
  apply (proj2 (proj2 (listings_agree_with_lookups es) T)).
  reflexivity.
Defined.

(* ================================================================== *)
(** * Status changes                                                    *)
(* ================================================================== *)

(** X6. [update_task_status] on an absent id raises the 404 of the task
    lookup and changes nothing.  On a stored task it writes the status
    of the body, whatever the status was before, sets updated_at to the
    current time and keeps every other field; the other tasks, the order
    of the store and the agents stay as they were. *)
Theorem update_task_status_overwrites_status now task_id body st :
  (PyDict.get (storage.tasks st) task_id = None ->
   update_task_status now task_id body st
   = (Raise (NotFound "Task not found"), st))
  /\
  (forall r, PyDict.get (storage.tasks st) task_id = Some r ->
   exists st',
     let r' := TaskDict.mk (TaskDict.id r) (TaskDict.title r)
                 (TaskDict.description r) (TaskDict.priority r)
                 (StatusUpdate.status body) (TaskDict.created_at r)
                 (Some now) (TaskDict.assigned_to r) in
     update_task_status now task_id body st = (Ok (_task_from_dict r'), st') /\
     PyDict.get (storage.tasks st') task_id = Some r' /\
     (forall k, k <> task_id ->
        PyDict.get (storage.tasks st') k = PyDict.get (storage.tasks st) k) /\
     PyDict.keys (storage.tasks st') = PyDict.keys (storage.tasks st) /\
     storage.agents st' = storage.agents st).
Proof.
  split; [apply update_task_status_missing |].
  intros r Hr. eexists. cbn zeta.
  split; [exact (update_task_status_found st now task_id body r Hr) |].
  simpl.
  split; [exact (PyDictFacts.get_modify_eq _ _ _ _ _ Hr) |].
  split; [| split; [apply PyDictFacts.keys_modify | reflexivity]].
  intros k Hk. apply PyDictFacts.get_modify_neq. congruence.
Qed.

Lemma update_task_status_overwrites_status_witness :
  let r := TaskDict.mk "id-1" "T" "D" "low" "done" "t0" None None in
  let st := storage.mk [] [("id-1", r)] in
  result (update_task_status "t1" "id-1" (StatusUpdate.mk "todo")) st
  = Ok (Task.mk "id-1" "T" "D" "low" "todo" "t0" (Some "t1") None) /\
  update_task_status "t1" "id-2" (StatusUpdate.mk "todo") st
  = (Raise (NotFound "Task not found"), st).
Proof.
  intros r st.
  destruct (update_task_status_overwrites_status "t1" "id-1"
              (StatusUpdate.mk "todo") st) as [_ Hfound].
  destruct (update_task_status_overwrites_status "t1" "id-2"
              (StatusUpdate.mk "todo") st) as [Hmissing _].
  split; [| exact (Hmissing eq_refl)].
  destruct (Hfound r eq_refl) as [st' [Hrun _]].
  unfold result. rewrite Hrun. reflexivity.
Defined.

Lemma after_update_task_status now task_id body st :
  after (update_task_status now task_id body) st =
  storage.set_tasks
    (PyDict.modify (storage.tasks st) task_id (status_effect now body)) st.
Proof.
  unfold after.
  destruct (PyDict.get (storage.tasks st) task_id) as [r |] eqn:Hr.
  - now rewrite (update_task_status_found st _ _ _ r Hr).
  - rewrite (update_task_status_missing st _ _ _ Hr). cbn [snd].
    rewrite (PyDictFacts.modify_absent _ _ _ _ Hr).
    now rewrite set_tasks_same.
Qed.

(** X7. Of two status changes in a row on the same task only the second
    leaves a trace: the store is the one the second change alone would
    have produced, and so is the task returned.  In particular, sending
    the same status twice keeps the status and moves updated_at to the
    time of the second call. *)
Theorem update_task_status_last_write_wins now1 now2 task_id body1 body2 st :
  update_task_status now2 task_id body2
    (after (update_task_status now1 task_id body1) st)
  = (result (update_task_status now2 task_id body2) st,
     after (update_task_status now2 task_id body2) st).
Proof.
  rewrite !after_update_task_status. unfold result.
  destruct (PyDict.get (storage.tasks st) task_id) as [r |] eqn:Hr.
  - rewrite (update_task_status_found st _ _ _ r Hr). cbn [fst].
    rewrite (update_task_status_found _ now2 task_id body2
               (status_effect now1 body1 r)).
    + simpl. rewrite PyDictFacts.modify_modify. reflexivity.
    + simpl. exact (PyDictFacts.get_modify_eq _ _ _ _ _ Hr).
  - rewrite (PyDictFacts.modify_absent _ _ _ (status_effect now1 body1) Hr).
    rewrite (PyDictFacts.modify_absent _ _ _ (status_effect now2 body2) Hr).
    rewrite set_tasks_same.
    now rewrite (update_task_status_missing st _ _ _ Hr).
Qed.

(* ================================================================== *)
(** * Reading back what was written                                     *)
(* ================================================================== *)

(** X8. The task a creating or mutating request answers with is the
    task a [get_task] on its id returns right afterwards: this holds for
    a creation (under the drawn id), an update, a status change and an
    assignment. *)
Theorem get_task_returns_last_response env req st k code T :
  creates env req = Some k \/ mutates req = Some k ->
  result (dispatch env req) st = Ok (TaskResponse code T) ->
  result (get_task k) (after (dispatch env req) st) = Ok T.
Proof.
  intros Hk.
  destruct req as [name role | | agent_id | title description priority
                  | sf af pf | task_id status | task_id agent_id | task_id
                  | task_id title description priority | task_id | ];
    simpl in Hk; destruct Hk as [Hk | Hk]; try discriminate;
    injection Hk as <-; run_dispatch.
  - destruct (TaskCreate.parse title description priority) as [body | e];
      [| discriminate].
    rewrite create_task_run. cbn [fst snd]. intros [= _ <-].
    erewrite get_task_found; [reflexivity |].
    apply PyDictFacts.get_setitem_eq.
  - destruct (StatusUpdate.parse status) as [body | e]; [| discriminate].
    destruct (PyDict.get (storage.tasks st) task_id) as [r |] eqn:Hr.
    + rewrite (update_task_status_found st _ _ _ r Hr). cbn [fst snd].
      intros [= _ <-]. erewrite get_task_found; [reflexivity |].
      exact (PyDictFacts.get_modify_eq _ _ _ _ _ Hr).
    + rewrite (update_task_status_missing st _ _ _ Hr). discriminate.
  - destruct (PyDict.get (storage.tasks st) task_id) as [r |] eqn:Hr.
    + destruct (PyDict.get (storage.agents st) agent_id) as [a |] eqn:Ha.
      * rewrite (assign_task_found st _ _ (AssignUpdate.mk agent_id) r a Hr Ha).
        cbn [fst snd]. intros [= _ <-].
        erewrite get_task_found; [reflexivity |].
        exact (PyDictFacts.get_modify_eq _ _ _ _ _ Hr).
      * rewrite (assign_task_no_agent st _ _ (AssignUpdate.mk agent_id) r Hr Ha).
        discriminate.
    + rewrite (assign_task_no_task st _ _ _ Hr). discriminate.
  - destruct (TaskUpdate.parse title description priority) as [body | e];
      [| discriminate].
    destruct (PyDict.get (storage.tasks st) task_id) as [r |] eqn:Hr.
    + rewrite (update_task_found st _ _ _ r Hr). cbn [fst snd].
      intros [= _ <-]. erewrite get_task_found; [reflexivity |].
      exact (PyDictFacts.get_modify_eq _ _ _ _ _ Hr).
    + rewrite (update_task_missing st _ _ _ Hr). discriminate.
Qed.

Lemma get_task_returns_last_response_witness :
  let a := AgentDict.mk "ag-1" "Alice" "senior_dev" in
  let r := TaskDict.mk "id-1" "T" "D" "low" "todo" "t0" None None in
  let st := storage.mk [("ag-1", a)] [("id-1", r)] in
  let env := mkEnv "u1" "t1" in
  result (get_task "id-1")
         (after (dispatch env (PATCH_tasks_assign "id-1" "ag-1")) st)
  = Ok (Task.mk "id-1" "T" "D" "low" "todo" "t0" (Some "t1")
                (Some (Agent.mk "ag-1" "Alice" "senior_dev"))) /\
  result (get_task "u1")
         (after (dispatch env (POST_tasks "N" "n" None)) st)
  = Ok (Task.mk "u1" "N" "n" "medium" "todo" "t1" None None).
Proof.
  intros a r st env. split.
  - exact (get_task_returns_last_response env
             (PATCH_tasks_assign "id-1" "ag-1") st "id-1" 200 _
             (or_intror eq_refl) eq_refl).
  - exact (get_task_returns_last_response env
             (POST_tasks "N" "n" None) st "u1" 201 _
             (or_introl eq_refl) eq_refl).
Defined.

(* ================================================================== *)
(** * Deleting, again                                                   *)
(* ================================================================== *)

Lemma after_delete_task env task_id st :
  after (delete_task task_id) st = transition env (DELETE_tasks task_id) st.
Proof.
  rewrite <- dispatch_transition. unfold after, dispatch, bind, ret.
  now destruct (delete_task task_id st) as [[c | e] st'].
Qed.

Lemma deleted_key_absent task_id st :
  PyDict.wf (storage.tasks st) ->
  PyDict.get (storage.tasks (after (delete_task task_id) st)) task_id = None.
Proof.
  intros Hwf. rewrite (after_delete_task (mkEnv "" "")). simpl.
  destruct (PyDict.delitem (storage.tasks st) task_id) as [d |] eqn:Hdel.
  - destruct (delitem_Some_present _ _ _ Hdel) as [v [l1 [l2 [_ [Hd [-> _]]]]]].
    rewrite Hd in Hwf. exact (proj2 (wf_middle _ _ _ _ Hwf)).
  - destruct (PyDict.get (storage.tasks st) task_id) as [r |] eqn:Hr;
      [| reflexivity].
    destruct (PyDictFacts.delitem_present _ _ _ _ Hr) as [l1 [l2 [_ [H _]]]].
    congruence.
Qed.

(** X9. Once [delete_task] has run on an id in a store reached from
    process start, the task is gone for every reader: [get_task] and a
    second [delete_task] on the id raise the 404 of the task lookup, and
    no listing, whatever its filters, contains a task with that id. *)
Theorem deleted_task_is_gone es task_id :
  let st' := after (delete_task task_id) (run es) in
  result (get_task task_id) st' = Raise (NotFound "Task not found") /\
  delete_task task_id st' = (Raise (NotFound "Task not found"), st') /\
  (forall sf af pf l,
     result (list_tasks sf af pf) st' = Ok l ->
     forall T, In T l -> Task.id T <> task_id).
Proof.
  intros st'.
  assert (Hgone : PyDict.get (storage.tasks st') task_id = None).
  { apply deleted_key_absent. exact (proj2 (run_store_wf es)). }
  assert (Hids : ids_match st').
  { unfold st'. rewrite (after_delete_task (mkEnv "" "")).
    apply transition_ids_match. apply run_ids_match. }
  split; [unfold result; now rewrite (get_task_missing _ _ Hgone) |].
  split; [exact (delete_task_missing _ _ Hgone) |].
  intros sf af pf l Hl T Hin Hid.
  unfold result in Hl. rewrite list_tasks_run in Hl. simpl in Hl.
  injection Hl as <-. apply in_map_iff in Hin.
  destruct Hin as [r [<- Hin]]. apply filter_In in Hin.
  destruct Hin as [Hin _]. apply In_values in Hin. destruct Hin as [k Hin].
  simpl in Hid. pose proof (proj2 Hids _ _ Hin) as Hk.
  apply PyDictFacts.In_keys in Hin.
  apply (proj1 (PyDictFacts.get_None_keys _ _ _) Hgone). congruence.
Qed.

Lemma delitem_snoc {V} (d : PyDict.t V) k v :
  PyDict.get d k = None -> PyDict.delitem (d ++ [(k, v)]) k = Some d.
Proof.
  induction d as [| [k1 v1] d IH]; simpl.
  - now rewrite String.eqb_refl.
  - destruct (k1 =? k); [discriminate |]. intros H. now rewrite (IH H).
Qed.

Lemma get_snoc {V} (d : PyDict.t V) k v :
  PyDict.get (d ++ [(k, v)]) k = Some v \/
  exists v0, PyDict.get d k = Some v0.
Proof.
  destruct (PyDict.get d k) as [v0 |] eqn:Hg; [right; now exists v0 |].
  left. rewrite <- (PyDictFacts.keys_setitem_absent _ _ _ v Hg).
  apply PyDictFacts.get_setitem_eq.
Qed.

(** X10. Deleting a task right after creating it under an id that was
    not in use gives back the store as it was before the creation. *)
Theorem delete_undoes_create uuid now body st :
  PyDict.get (storage.tasks st) uuid = None ->
  delete_task uuid (after (create_task uuid now body) st)
  = (Ok HTTP_204_NO_CONTENT, st).
Proof.
  intros Hfresh. unfold after. rewrite create_task_run. cbn [snd].
  rewrite (PyDictFacts.keys_setitem_absent _ _ _ _ Hfresh).
  unfold delete_task, _get_task_or_404. unfold_monad.
  cbn [storage.tasks storage.set_tasks].
  destruct (get_snoc (storage.tasks st) uuid
              (TaskDict.mk uuid (TaskCreate.title body)
                 (TaskCreate.description body) (TaskCreate.priority body)
                 "todo" now None None)) as [-> | [v0 Hv0]];
    [| congruence].
  cbn [storage.tasks storage.set_tasks].
  rewrite (delitem_snoc _ _ _ Hfresh). simpl.
  now destruct st.
Qed.

Lemma delete_undoes_create_witness :
  let r := TaskDict.mk "id-1" "T" "D" "low" "todo" "t0" None None in
  let st := storage.mk [] [("id-1", r)] in
  delete_task "id-2"
    (after (create_task "id-2" "t1" (TaskCreate.mk "U" "E" "high")) st)
  = (Ok HTTP_204_NO_CONTENT, st).
Proof.
  intros r st.
  exact (delete_undoes_create "id-2" "t1" (TaskCreate.mk "U" "E" "high") st
           eq_refl).
Defined.

(** X11. A task created under an id that was not in use comes last in
    the store: a listing after the creation is the listing before it,
    followed by the new task when the new task meets the filters.  The
    new task meets a status filter only for "todo" and never meets an
    assigned_to filter. *)
Theorem create_task_appends_to_listing uuid now body st sf af pf :
  PyDict.get (storage.tasks st) uuid = None ->
  let record := TaskDict.mk uuid (TaskCreate.title body)
                  (TaskCreate.description body) (TaskCreate.priority body)
                  "todo" now None None in
  let st' := after (create_task uuid now body) st in
  exists l,
    result (list_tasks sf af pf) st = Ok l /\
    result (list_tasks sf af pf) st'
    = Ok (l ++ if matches sf af pf record then [_task_from_dict record]
               else []) /\
    (forall a, af = Some a -> matches sf af pf record = false) /\
    (forall s, sf = Some s -> s <> "todo" -> matches sf af pf record = false).
Proof.
  intros Hfresh record st'. eexists.
  split; [unfold result; now rewrite list_tasks_run |].
  split.
  - unfold result, st', after. rewrite list_tasks_run, create_task_run.
    cbn [fst snd storage.tasks storage.set_tasks].
    rewrite (PyDictFacts.keys_setitem_absent _ _ _ _ Hfresh).
    rewrite values_snoc, filter_app, map_app. cbn [filter].
    subst record. now destruct (matches sf af pf _).
  - split.
    + intros a ->. unfold matches. cbn [TaskDict.assigned_to record].
      now rewrite andb_false_r.
    + intros s -> Hs. unfold matches. cbn [TaskDict.status record].
      destruct (String.eqb_spec "todo" s); [congruence | reflexivity].
Qed.

Lemma create_task_appends_to_listing_witness :
  let r := TaskDict.mk "id-1" "T" "D" "low" "done" "t0" None None in
  let st := storage.mk [] [("id-1", r)] in
  let st' := after (create_task "id-2" "t1" (TaskCreate.mk "U" "E" "high")) st in
  result (list_tasks None None None) st'
  = Ok [_task_from_dict r;
        Task.mk "id-2" "U" "E" "high" "todo" "t1" None None].
Proof.
  intros r st st'.
  destruct (create_task_appends_to_listing "id-2" "t1"
              (TaskCreate.mk "U" "E" "high") st None None None eq_refl)
    as [l [Hl [Hl' _]]].
  unfold st'. rewrite Hl'. injection Hl as <-. reflexivity.
Defined.

(* ================================================================== *)
(** * The dashboard after a change                                      *)
(* ================================================================== *)

Lemma matches_status_only s t :
  matches (Some s) None None t = (TaskDict.status t =? s).
Proof. unfold matches. now rewrite !andb_true_r. Qed.

Lemma matches_priority_only p t :
  matches None None (Some p) t = (TaskDict.priority t =? p).
Proof. reflexivity. Qed.

(** X12. The dashboard and the filtered listings count the same tasks:
    for each of the four statuses the count under by_status is the
    length of the listing filtered by that status, and for each of the
    three priorities the count under by_priority is the length of the
    listing filtered by that priority.  This holds in every store. *)
Theorem dashboard_counts_are_listing_lengths st :
  exists d,
    get_dashboard st = (Ok d, st) /\
    (forall s, In s VALID_STATUSES ->
       exists l, list_tasks (Some s) None None st = (Ok l, st) /\
                 PyDict.get (DashboardResponse.by_status d) s
                 = Some (length l)) /\
    (forall p, In p VALID_PRIORITIES ->
       exists l, list_tasks None None (Some p) st = (Ok l, st) /\
                 PyDict.get (DashboardResponse.by_priority d) p
                 = Some (length l)).
Proof.
  eexists. split; [apply get_dashboard_run |]. cbn [DashboardResponse.by_status
    DashboardResponse.by_priority].
  split.
  - intros s Hs. eexists. split; [apply list_tasks_run |].
    rewrite length_map, get_tally.
    rewrite (filter_ext _ _ (matches_status_only s)).
    simpl in Hs. destruct Hs as [<- | [<- | [<- | [<- | []]]]]; reflexivity.
  - intros p Hp. eexists. split; [apply list_tasks_run |].
    rewrite length_map, get_tally.
    change (filter (matches None None (Some p)))
      with (filter (fun t => TaskDict.priority t =? p)).
    simpl in Hp. destruct Hp as [<- | [<- | [<- | []]]]; reflexivity.
Qed.

Lemma dashboard_counts_are_listing_lengths_witness :
  let r1 := TaskDict.mk "id-1" "A" "a" "high" "todo" "t0" None None in
  let r2 := TaskDict.mk "id-2" "B" "b" "high" "done" "t1" None None in
  let st := storage.mk [] [("id-1", r1); ("id-2", r2)] in
  exists d,
    get_dashboard st = (Ok d, st) /\
    PyDict.get (DashboardResponse.by_status d) "done" = Some 1 /\
    PyDict.get (DashboardResponse.by_priority d) "high" = Some 2.
Proof.
  intros r1 r2 st.
  destruct (dashboard_counts_are_listing_lengths st) as [d [Hd [Hs Hp]]].
  exists d. split; [exact Hd |].
  assert (Hdone : In "done" VALID_STATUSES) by (simpl; tauto).
  assert (Hhigh : In "high" VALID_PRIORITIES) by (simpl; tauto).
  destruct (Hs "done" Hdone) as [l1 [Hl1 ->]].
  destruct (Hp "high" Hhigh) as [l2 [Hl2 ->]].
  injection Hl1 as <-. injection Hl2 as <-. split; reflexivity.
Defined.

Section TallyAfterChange.
Variable field : TaskDict.t -> string.

Lemma tally_snoc l x d :
  fold_left (fun d t => bump d (field t)) (l ++ [x]) d
  = bump (fold_left (fun d t => bump d (field t)) l d) (field x).
Proof. now rewrite fold_left_app. Qed.

Lemma tally_map l : forall d,
  fold_left (fun d t => bump d (field t)) l d
  = fold_left bump (map field l) d.
Proof.
  induction l as [| t l IH]; intros d; simpl; [reflexivity | apply IH].
Qed.

Lemma count_middle (l1 l2 : PyDict.t TaskDict.t) k r s :
  length (filter (fun t => field t =? s)
            (PyDict.values (l1 ++ (k, r) :: l2)))
  = length (filter (fun t => field t =? s) (PyDict.values (l1 ++ l2)))
    + (if field r =? s then 1 else 0).
Proof.
  unfold PyDict.values. rewrite !map_app, !filter_app, !length_app. simpl.
  destruct (field r =? s); simpl; lia.
Qed.
End TallyAfterChange.

Lemma modify_present {V} (d : PyDict.t V) k f v :
  PyDict.get d k = Some v ->
  exists l1 l2, d = l1 ++ (k, v) :: l2 /\
                PyDict.modify d k f = l1 ++ (k, f v) :: l2.
Proof.
  induction d as [| [k1 v1] d IH]; simpl; [discriminate |].
  destruct (String.eqb_spec k1 k) as [-> | Hne].
  - intros [= ->]. now exists [], d.
  - intros H. destruct (IH H) as [l1 [l2 [-> ->]]].
    now exists ((k1, v1) :: l1), l2.
Qed.

Lemma map_values_modify (g : TaskDict.t -> string) d k f :
  (forall x, g (f x) = g x) ->
  map g (PyDict.values (PyDict.modify d k f)) = map g (PyDict.values d).
Proof.
  intros Hg. unfold PyDict.values.
  induction d as [| [k1 v1] d IH]; simpl; [reflexivity |].
  destruct (k1 =? k); simpl; [now rewrite Hg | now rewrite IH].
Qed.

(** X13. The dashboard right after a creation under an id that was not
    in use counts one task more in total, one more under "todo", one
    more under the priority of the new task, and the same as before
    under every other status and priority. *)
Theorem dashboard_follows_creation uuid now body st d d' :
  PyDict.get (storage.tasks st) uuid = None ->
  result get_dashboard st = Ok d ->
  result get_dashboard (after (create_task uuid now body) st) = Ok d' ->
  DashboardResponse.total d' = DashboardResponse.total d + 1 /\
  (forall s,
     PyDict.get (DashboardResponse.by_status d') s
     = match PyDict.get (DashboardResponse.by_status d) s with
       | Some n => Some (n + if "todo" =? s then 1 else 0)
       | None => None
       end) /\
  (forall p,
     PyDict.get (DashboardResponse.by_priority d') p
     = match PyDict.get (DashboardResponse.by_priority d) p with
       | Some n => Some (n + if TaskCreate.priority body =? p then 1 else 0)
       | None => None
       end).
Proof.
  intros Hfresh. unfold result, after.
  rewrite create_task_run, !get_dashboard_run.
  cbn [fst snd storage.tasks storage.set_tasks].
  rewrite (PyDictFacts.keys_setitem_absent _ _ _ _ Hfresh), values_snoc.
  intros [= <-] [= <-].
  cbn [DashboardResponse.total DashboardResponse.by_status
       DashboardResponse.by_priority].
  split; [rewrite length_app; reflexivity |].
  split; intros x; rewrite tally_snoc, get_bump; reflexivity.
Qed.

Lemma dashboard_follows_creation_witness :
  let r := TaskDict.mk "id-1" "T" "D" "low" "todo" "t0" None None in
  let st := storage.mk [] [("id-1", r)] in
  let st' := after (create_task "id-2" "t1" (TaskCreate.mk "U" "E" "high")) st in
  exists d',
    result get_dashboard st' = Ok d' /\
    DashboardResponse.total d' = 2 /\
    PyDict.get (DashboardResponse.by_status d') "todo" = Some 2 /\
    PyDict.get (DashboardResponse.by_priority d') "high" = Some 1.
Proof.
  intros r st st'. eexists. split; [reflexivity |].
  destruct (dashboard_follows_creation "id-2" "t1"
              (TaskCreate.mk "U" "E" "high") st _ _ eq_refl eq_refl eq_refl)
    as [Ht [Hs Hp]].
  split; [exact Ht |]. split; [exact (Hs "todo") | exact (Hp "high")].
Defined.

(** X14. The dashboard right after a successful deletion counts one task
    less in total, one less under the status and one less under the
    priority the deleted task had, and the same as before under every
    other key. *)
Theorem dashboard_follows_deletion task_id st r d d' :
  PyDict.get (storage.tasks st) task_id = Some r ->
  result get_dashboard st = Ok d ->
  result get_dashboard (after (delete_task task_id) st) = Ok d' ->
  DashboardResponse.total d = DashboardResponse.total d' + 1 /\
  (forall s,
     PyDict.get (DashboardResponse.by_status d) s
     = match PyDict.get (DashboardResponse.by_status d') s with
       | Some n => Some (n + if TaskDict.status r =? s then 1 else 0)
       | None => None
       end) /\
  (forall p,
     PyDict.get (DashboardResponse.by_priority d) p
     = match PyDict.get (DashboardResponse.by_priority d') p with
       | Some n => Some (n + if TaskDict.priority r =? p then 1 else 0)
       | None => None
       end).
Proof.
  intros Hr.
  destruct (delete_task_found st task_id r Hr) as [l1 [l2 [Hd [_ Hrun]]]].
  unfold result, after. rewrite Hrun, !get_dashboard_run.
  cbn [fst snd storage.tasks storage.set_tasks]. rewrite Hd.
  intros [= <-] [= <-].
  cbn [DashboardResponse.total DashboardResponse.by_status
       DashboardResponse.by_priority].
  split.
  { unfold PyDict.values. rewrite !length_map, !length_app. simpl. lia. }
  split; intros x; rewrite !get_tally, count_middle;
    match goal with
    | |- context [PyDict.get ?init x] => destruct (PyDict.get init x)
    end; try reflexivity; f_equal; lia.
Qed.

Lemma dashboard_follows_deletion_witness :
  let r1 := TaskDict.mk "id-1" "A" "a" "high" "todo" "t0" None None in
  let r2 := TaskDict.mk "id-2" "B" "b" "high" "done" "t1" None None in
  let st := storage.mk [] [("id-1", r1); ("id-2", r2)] in
  exists d d',
    result get_dashboard st = Ok d /\
    result get_dashboard (after (delete_task "id-2") st) = Ok d' /\
    DashboardResponse.total d = DashboardResponse.total d' + 1.
Proof.
  intros r1 r2 st. eexists. eexists.
  split; [reflexivity |]. split; [reflexivity |].
  exact (proj1 (dashboard_follows_deletion "id-2" st r2 _ _
                  eq_refl eq_refl eq_refl)).
Defined.

(** X15. The dashboard right after a successful status change has the
    same total and the same counts by priority; under by_status the
    task has moved from the count of its old status to the count of its
    new one. *)
Theorem dashboard_follows_status_change now task_id body st r d d' :
  PyDict.get (storage.tasks st) task_id = Some r ->
  result get_dashboard st = Ok d ->
  result get_dashboard (after (update_task_status now task_id body) st)
    = Ok d' ->
  DashboardResponse.total d' = DashboardResponse.total d /\
  DashboardResponse.by_priority d' = DashboardResponse.by_priority d /\
  (forall s n n',
     PyDict.get (DashboardResponse.by_status d) s = Some n ->
     PyDict.get (DashboardResponse.by_status d') s = Some n' ->
     n' + (if TaskDict.status r =? s then 1 else 0)
     = n + (if StatusUpdate.status body =? s then 1 else 0)) /\
  PyDict.keys (DashboardResponse.by_status d')
    = PyDict.keys (DashboardResponse.by_status d).
Proof.
  intros Hr. rewrite after_update_task_status. unfold result.
  rewrite !get_dashboard_run.
  cbn [fst storage.tasks storage.set_tasks].
  intros [= <-] [= <-].
  cbn [DashboardResponse.total DashboardResponse.by_status
       DashboardResponse.by_priority].
  split.
  { unfold PyDict.values. now rewrite !length_map, PyDictFacts.length_modify. }
  split.
  { rewrite (tally_map TaskDict.priority),
            (tally_map TaskDict.priority (PyDict.values (storage.tasks st))).
    now rewrite map_values_modify. }
  split; [| now rewrite !keys_tally].
  intros s n n'. rewrite !get_tally.
  destruct (modify_present _ task_id (status_effect now body) _ Hr)
    as [l1 [l2 [Hd Hm]]].
  rewrite Hm, Hd, !count_middle.
  match goal with
  | |- context [PyDict.get ?init s] => destruct (PyDict.get init s)
  end; [| discriminate].
  intros [= <-] [= <-]. simpl. lia.
Qed.

Lemma dashboard_follows_status_change_witness :
  let r1 := TaskDict.mk "id-1" "A" "a" "high" "todo" "t0" None None in
  let r2 := TaskDict.mk "id-2" "B" "b" "low" "todo" "t1" None None in
  let st := storage.mk [] [("id-1", r1); ("id-2", r2)] in
  exists d d',
    result get_dashboard st = Ok d /\
    result get_dashboard
      (after (update_task_status "t2" "id-1" (StatusUpdate.mk "done")) st)
      = Ok d' /\
    DashboardResponse.total d' = DashboardResponse.total d /\
    DashboardResponse.by_priority d' = DashboardResponse.by_priority d.
Proof.
  intros r1 r2 st. eexists. eexists.
  split; [reflexivity |]. split; [reflexivity |].
  destruct (dashboard_follows_status_change "t2" "id-1"
              (StatusUpdate.mk "done") st r1 _ _ eq_refl eq_refl eq_refl)
    as [Ht [Hp _]].
  split; [exact Ht | exact Hp].
Defined.

(* ================================================================== *)
(** * Validation and failures                                           *)
(* ================================================================== *)

Lemma mem_false_iff v S : mem v S = false <-> ~ In v S.
Proof.
  rewrite <- mem_In. destruct (mem v S); split; congruence.
Qed.

(** X16. The validators of the request models accept exactly the members
    of the enumerations, compared as they are written, and hand them on
    unchanged: a priority passes when it is "low", "medium" or "high", a
    status when it is "todo", "in_progress", "review" or "done"; every
    other string ends in a [ValueError].  The priority of an update may
    also be missing, which passes. *)
Theorem validators_accept_the_enumerations :
  (forall v,
     (v = "low" \/ v = "medium" \/ v = "high" ->
      TaskCreate.validate_priority v = Ok v /\
      TaskUpdate.validate_priority (Some v) = Ok (Some v)) /\
     (~ (v = "low" \/ v = "medium" \/ v = "high") ->
      (exists msg, TaskCreate.validate_priority v = Raise (ValueError msg)) /\
      (exists msg,
         TaskUpdate.validate_priority (Some v) = Raise (ValueError msg)))) /\
  TaskUpdate.validate_priority None = Ok None /\
  (forall v,
     (v = "todo" \/ v = "in_progress" \/ v = "review" \/ v = "done" ->
      StatusUpdate.validate_status v = Ok v) /\
     (~ (v = "todo" \/ v = "in_progress" \/ v = "review" \/ v = "done") ->
      exists msg, StatusUpdate.validate_status v = Raise (ValueError msg))).
Proof.
  split; [| split; [reflexivity |]].
  - intros v. unfold TaskCreate.validate_priority, TaskUpdate.validate_priority.
    split.
    + intros Hv. assert (Hm : mem v VALID_PRIORITIES = true).
      { apply mem_In. simpl. intuition congruence. }
      now rewrite Hm.
    + intros Hv. assert (Hm : mem v VALID_PRIORITIES = false).
      { apply mem_false_iff. simpl. intuition congruence. }
      rewrite Hm. simpl. split; eexists; reflexivity.
  - intros v. unfold StatusUpdate.validate_status. split.
    + intros Hv. assert (Hm : mem v VALID_STATUSES = true).
      { apply mem_In. simpl. intuition congruence. }
      now rewrite Hm.
    + intros Hv. assert (Hm : mem v VALID_STATUSES = false).
      { apply mem_false_iff. simpl. intuition congruence. }
      rewrite Hm. simpl. eexists; reflexivity.
Qed.

Lemma validators_accept_the_enumerations_witness :
  TaskCreate.validate_priority "high" = Ok "high" /\
  StatusUpdate.validate_status "in_progress" = Ok "in_progress" /\
  (exists msg, TaskCreate.validate_priority "High" = Raise (ValueError msg)) /\
  (exists msg, StatusUpdate.validate_status "" = Raise (ValueError msg)).
Proof.
  destruct validators_accept_the_enumerations as [Hp [_ Hs]].
  split; [apply (proj1 (Hp "high")); tauto |].
  split; [apply (proj1 (Hs "in_progress")); tauto |].
  split.
  - apply (proj2 (Hp "High")). intros [E | [E | E]]; discriminate E.
  - apply (proj2 (Hs "")). intros [E | [E | [E | E]]]; discriminate E.
Defined.

Lemma TaskCreate_parse_raises title description priority e :
  TaskCreate.parse title description priority = Raise e ->
  exists msg, e = ValueError msg.
Proof.
  unfold TaskCreate.parse, TaskCreate.validate_priority.
  destruct priority as [p |]; [| discriminate].
  destruct (mem p VALID_PRIORITIES); simpl; [discriminate |].
  intros [= <-]. now eexists.
Qed.

Lemma TaskUpdate_parse_raises title description priority e :
  TaskUpdate.parse title description priority = Raise e ->
  exists msg, e = ValueError msg.
Proof.
  unfold TaskUpdate.parse, TaskUpdate.validate_priority.
  destruct priority as [p |]; [| discriminate].
  destruct (mem p VALID_PRIORITIES); simpl; [discriminate |].
  intros [= <-]. now eexists.
Qed.

Lemma StatusUpdate_parse_raises status e :
  StatusUpdate.parse status = Raise e -> exists msg, e = ValueError msg.
Proof.
  unfold StatusUpdate.parse, StatusUpdate.validate_status.
  destruct (mem status VALID_STATUSES); simpl; [discriminate |].
  intros [= <-]. now eexists.
Qed.

(** X17. A request that ends in an exception leaves the store exactly as
    it found it, and the exception is a [ValueError] of a validator or a
    404 with detail "Task not found" or "Agent not found".  In
    particular the [del] of [delete_task] never raises a [KeyError]. *)
Theorem failed_request_changes_nothing env req st e :
  result (dispatch env req) st = Raise e ->
  after (dispatch env req) st = st /\
  expected_failure e /\
  (forall k, e <> KeyError k).
Proof.
  intros Hfail.
  assert (H : after (dispatch env req) st = st /\ expected_failure e).
  { revert Hfail. unfold expected_failure.
    destruct req as [name role | | agent_id | title description priority
                    | sf af pf | task_id status | task_id agent_id | task_id
                    | task_id title description priority | task_id | ].
    - discriminate.
    - discriminate.
    - unfold result, after, dispatch. unfold bind, ret.
      destruct (PyDict.get (storage.agents st) agent_id) as [a |] eqn:Ha.
      + rewrite (get_agent_found _ _ _ Ha). discriminate.
      + rewrite (get_agent_missing _ _ Ha). cbn [fst snd].
        intros [= <-]. tauto.
    - run_dispatch.
      destruct (TaskCreate.parse title description priority) as [body | e']
        eqn:Hparse; [discriminate |].
      cbn [fst snd]. intros [= <-].
      split; [reflexivity |]. right. right.
      exact (TaskCreate_parse_raises _ _ _ _ Hparse).
    - run_dispatch. rewrite list_tasks_run. discriminate.
    - run_dispatch.
      destruct (StatusUpdate.parse status) as [body | e'] eqn:Hparse.
      + destruct (PyDict.get (storage.tasks st) task_id) as [r |] eqn:Hr.
        * rewrite (update_task_status_found st _ _ _ r Hr). discriminate.
        * rewrite (update_task_status_missing st _ _ _ Hr). cbn [fst snd].
          intros [= <-]. tauto.
      + cbn [fst snd]. intros [= <-].
        split; [reflexivity |]. right. right.
        exact (StatusUpdate_parse_raises _ _ Hparse).
    - run_dispatch.
      destruct (PyDict.get (storage.tasks st) task_id) as [r |] eqn:Hr.
      + destruct (PyDict.get (storage.agents st) agent_id) as [a |] eqn:Ha.
        * rewrite (assign_task_found st _ _ (AssignUpdate.mk agent_id) r a Hr Ha).
          discriminate.
        * rewrite (assign_task_no_agent st _ _ (AssignUpdate.mk agent_id) r Hr Ha).
          cbn [fst snd]. intros [= <-]. tauto.
      + rewrite (assign_task_no_task st _ _ _ Hr). cbn [fst snd].
        intros [= <-]. tauto.
    - unfold result, after, dispatch. unfold bind, ret.
      destruct (PyDict.get (storage.tasks st) task_id) as [r |] eqn:Hr.
      + rewrite (get_task_found _ _ _ Hr). discriminate.
      + rewrite (get_task_missing _ _ Hr). cbn [fst snd].
        intros [= <-]. tauto.
    - run_dispatch.
      destruct (TaskUpdate.parse title description priority) as [body | e']
        eqn:Hparse.
      + destruct (PyDict.get (storage.tasks st) task_id) as [r |] eqn:Hr.
        * rewrite (update_task_found st _ _ _ r Hr). discriminate.
        * rewrite (update_task_missing st _ _ _ Hr). cbn [fst snd].
          intros [= <-]. tauto.
      + cbn [fst snd]. intros [= <-].
        split; [reflexivity |]. right. right.
        exact (TaskUpdate_parse_raises _ _ _ _ Hparse).
    - run_dispatch.
      destruct (PyDict.get (storage.tasks st) task_id) as [r |] eqn:Hr.
      + destruct (delete_task_found st task_id r Hr)
          as [l1 [l2 [_ [_ Hrun]]]].
        rewrite Hrun. discriminate.
      + rewrite (delete_task_missing st _ Hr). cbn [fst snd].
        intros [= <-]. tauto.
    - run_dispatch. destruct (get_dashboard_reads st) as [d ->].
      discriminate. }
  destruct H as [Hst Hexp]. split; [exact Hst |]. split; [exact Hexp |].
  intros k ->. destruct Hexp as [E | [E | [msg E]]]; discriminate E.
Qed.

Lemma failed_request_changes_nothing_witness :
  let r := TaskDict.mk "id-1" "T" "D" "low" "todo" "t0" None None in
  let st := storage.mk [] [("id-1", r)] in
  let env := mkEnv "u1" "t1" in
  after (dispatch env (PUT_tasks "id-1" (Some "X") None (Some "urgent"))) st
    = st /\
  after (dispatch env (PATCH_tasks_assign "id-1" "nobody")) st = st.
Proof.
  intros r st env. split.
  - exact (proj1 (failed_request_changes_nothing env
                    (PUT_tasks "id-1" (Some "X") None (Some "urgent")) st _
                    eq_refl)).
  - exact (proj1 (failed_request_changes_nothing env
                    (PATCH_tasks_assign "id-1" "nobody") st _ eq_refl)).
Defined.

(* ================================================================== *)
(** * What a request leaves alone                                       *)
(* ================================================================== *)

Lemma transition_task_elsewhere env req st k :
  target env req <> Some k ->
  PyDict.get (storage.tasks (transition env req st)) k
  = PyDict.get (storage.tasks st) k.
Proof.
  destruct req as [name role | | agent_id | title description priority
                  | sf af pf | task_id status | task_id agent_id | task_id
                  | task_id title description priority | task_id | ];
    simpl; intros Hk; try reflexivity.
  - destruct (TaskCreate.parse title description priority); [| reflexivity].
    simpl. apply PyDictFacts.get_setitem_neq. congruence.
  - destruct (StatusUpdate.parse status); [| reflexivity].
    simpl. apply PyDictFacts.get_modify_neq. congruence.
  - destruct (PyDict.get (storage.agents st) agent_id); [| reflexivity].
    simpl. apply PyDictFacts.get_modify_neq. congruence.
  - destruct (TaskUpdate.parse title description priority); [| reflexivity].
    simpl. apply PyDictFacts.get_modify_neq. congruence.
  - destruct (PyDict.delitem (storage.tasks st) task_id) as [d |] eqn:Hdel;
      [| reflexivity].
    destruct (delitem_Some_present _ _ _ Hdel) as [v [l1 [l2 [_ [-> [-> _]]]]]].
    simpl. symmetry. apply PyDictFacts.get_app_other. congruence.
Qed.

(** X19. A request touches only what it names.  A reading request (any
    GET) leaves the whole store as it is; a request aimed at a task id
    leaves the task under every other id as it is; only an agent
    creation changes the agent collection, and it leaves the tasks
    alone. *)
Theorem request_touches_only_its_target env req st :
  (reads_only req = true -> after (dispatch env req) st = st) /\
  (forall k, target env req <> Some k ->
     PyDict.get (storage.tasks (after (dispatch env req) st)) k
     = PyDict.get (storage.tasks st) k) /\
  ((forall name role, req <> POST_agents name role) ->
     storage.agents (after (dispatch env req) st) = storage.agents st) /\
  (forall name role, req = POST_agents name role ->
     storage.tasks (after (dispatch env req) st) = storage.tasks st).
Proof.
  rewrite dispatch_transition.
  split; [| split; [| split]].
  - destruct req; simpl; intros H; try discriminate; reflexivity.
  - intros k. apply transition_task_elsewhere.
  - intros Hreq. rewrite transition_agents.
    destruct req; try reflexivity. now elim (Hreq name role).
  - intros name role ->. reflexivity.
Qed.

Lemma request_touches_only_its_target_witness :
  let a := AgentDict.mk "ag-1" "Alice" "senior_dev" in
  let r1 := TaskDict.mk "id-1" "A" "a" "high" "todo" "t0" None None in
  let r2 := TaskDict.mk "id-2" "B" "b" "low" "todo" "t1" None None in
  let st := storage.mk [("ag-1", a)] [("id-1", r1); ("id-2", r2)] in
  let env := mkEnv "u1" "t2" in
  after (dispatch env (GET_tasks (Some "todo") None None)) st = st /\
  PyDict.get (storage.tasks (after (dispatch env (DELETE_tasks "id-1")) st))
             "id-2" = Some r2 /\
  storage.agents (after (dispatch env (PATCH_tasks_assign "id-1" "ag-1")) st)
    = storage.agents st.
Proof.
  intros a r1 r2 st env. split; [| split].
  - exact (proj1 (request_touches_only_its_target env
                    (GET_tasks (Some "todo") None None) st) eq_refl).
  - rewrite (proj1 (proj2 (request_touches_only_its_target env
                             (DELETE_tasks "id-1") st)) "id-2");
      [reflexivity | discriminate].
  - apply (proj1 (proj2 (proj2 (request_touches_only_its_target env
                             (PATCH_tasks_assign "id-1" "ag-1") st)))).
    discriminate.
Defined.

Ltac task_unchanged :=
  match goal with
  | H : PyDict.get ?d ?k = Some ?T, H' : PyDict.get ?d ?k = Some ?T' |- _ =>
      assert (T' = T) by congruence; subst T';
      repeat split; try reflexivity; try tauto;
      try (intros [? | [? | ?]]; tauto); intros; tauto
  end.

Ltac task_mutated :=
  repeat split; try reflexivity; try tauto; try discriminate;
  try (intros _; now eexists);
  try (intros _; now do 3 eexists);
  try (intros [? | [? | ?]]; tauto).

(** X18. Between two requests a stored task changes only through the
    request made for that change.  Unless a creation draws its id again,
    a task that is still stored under its id after a request has the id
    and created_at it had; its status differs only after a status change
    on that id, its assignment only after an assignment on that id, its
    title, description or priority only after an update on that id; an
    assignment or an updated_at that was set is never cleared; and the
    task differs at all only after a mutating request on its id. *)
Theorem task_fields_change_only_by_their_request env req st k T T' :
  PyDict.wf (storage.tasks st) ->
  PyDict.get (storage.tasks st) k = Some T ->
  PyDict.get (storage.tasks (after (dispatch env req) st)) k = Some T' ->
  creates env req <> Some k ->
  TaskDict.id T' = TaskDict.id T /\
  TaskDict.created_at T' = TaskDict.created_at T /\
  (TaskDict.status T' <> TaskDict.status T ->
     exists s, req = PATCH_tasks_status k s) /\
  (TaskDict.assigned_to T' <> TaskDict.assigned_to T ->
     exists a, req = PATCH_tasks_assign k a) /\
  (TaskDict.title T' <> TaskDict.title T \/
   TaskDict.description T' <> TaskDict.description T \/
   TaskDict.priority T' <> TaskDict.priority T ->
     exists t d p, req = PUT_tasks k t d p) /\
  (TaskDict.assigned_to T <> None -> TaskDict.assigned_to T' <> None) /\
  (TaskDict.updated_at T <> None -> TaskDict.updated_at T' <> None) /\
  (T' <> T -> mutates req = Some k).
Proof.
  intros Hwf HT. rewrite dispatch_transition.
  destruct req as [name role | | agent_id | title description priority
                  | sf af pf | task_id status | task_id agent_id | task_id
                  | task_id title description priority | task_id | ];
    simpl; intros HT' Hcr; try task_unchanged.
  - (* POST /tasks *)
    destruct (TaskCreate.parse title description priority);
      [| task_unchanged].
    simpl in HT'. rewrite PyDictFacts.get_setitem_neq in HT' by congruence.
    task_unchanged.
  - (* PATCH /tasks/{id}/status *)
    destruct (StatusUpdate.parse status) as [body |]; [| task_unchanged].
    simpl in HT'. destruct (String.eqb_spec task_id k) as [-> | Hne].
    + rewrite (PyDictFacts.get_modify_eq _ _ _ _ _ HT) in HT'.
      injection HT' as <-. simpl.
      task_mutated.
    + rewrite (PyDictFacts.get_modify_neq _ _ _ _ _ Hne) in HT'.
      task_unchanged.
  - (* PATCH /tasks/{id}/assign *)
    destruct (PyDict.get (storage.agents st) agent_id) as [agent |];
      [| task_unchanged].
    simpl in HT'. destruct (String.eqb_spec task_id k) as [-> | Hne].
    + rewrite (PyDictFacts.get_modify_eq _ _ _ _ _ HT) in HT'.
      injection HT' as <-. simpl.
      task_mutated.
    + rewrite (PyDictFacts.get_modify_neq _ _ _ _ _ Hne) in HT'.
      task_unchanged.
  - (* PUT /tasks/{id} *)
    destruct (TaskUpdate.parse title description priority) as [body |];
      [| task_unchanged].
    simpl in HT'. destruct (String.eqb_spec task_id k) as [-> | Hne].
    + rewrite (PyDictFacts.get_modify_eq _ _ _ _ _ HT) in HT'.
      injection HT' as <-. simpl.
      task_mutated.
    + rewrite (PyDictFacts.get_modify_neq _ _ _ _ _ Hne) in HT'.
      task_unchanged.
  - (* DELETE /tasks/{id} *)
    destruct (PyDict.delitem (storage.tasks st) task_id) as [d |] eqn:Hdel;
      [| task_unchanged].
    destruct (delitem_Some_present _ _ _ Hdel) as [v [l1 [l2 [_ [Hd [-> _]]]]]].
    simpl in HT'. destruct (String.eqb_spec task_id k) as [-> | Hne].
    + rewrite Hd in Hwf.
      rewrite (proj2 (wf_middle _ _ _ _ Hwf)) in HT'. discriminate.
    + rewrite <- (PyDictFacts.get_app_other _ l1 l2 _ _ v Hne), <- Hd in HT'.
      task_unchanged.
Qed.

Lemma task_fields_change_only_by_their_request_witness :
  let a := AgentDict.mk "ag-1" "Alice" "senior_dev" in
  let T := TaskDict.mk "id-1" "A" "a" "high" "todo" "t0" (Some "t1") (Some a) in
  let st := storage.mk [("ag-1", a)] [("id-1", T)] in
  let env := mkEnv "u1" "t2" in
  let req := PUT_tasks "id-1" (Some "B") None None in
  exists T',
    PyDict.get (storage.tasks (after (dispatch env req) st)) "id-1" = Some T' /\
    TaskDict.created_at T' = "t0" /\
    TaskDict.assigned_to T' <> None.
Proof.
  intros a T st env req. eexists. split; [reflexivity |].
  assert (Hwf : PyDict.wf (storage.tasks st)).
  { repeat constructor; simpl; tauto. }
  assert (Hcr : creates env req <> Some "id-1") by discriminate.
  destruct (task_fields_change_only_by_their_request env req st "id-1" T _
              Hwf eq_refl eq_refl Hcr)
    as [_ [Hcreated [_ [_ [_ [Hassigned _]]]]]].
  split; [exact Hcreated | apply Hassigned; discriminate].
Defined.
